(** * stockScript: the fetch-and-merge pipeline of [stockScript.py]

    A shallow embedding of the three functions of the script
    ([get_all_a_stock_codes], [get_stock_history], [main]) and of the
    library operations they call, followed by the properties of the
    pipeline.

    Modelling conventions.
    - A Python [str] is a [string]; one character of the model is one code
      point of the [str], for code points below 256.  The script's own
      Chinese literals are spelled by their UTF-8 bytes: they are only used
      as column labels (compared for equality) and as message prefixes.
    - A Python [int] is a [Z]; [int()] is that of CPython 3.11 or later
      with its default limit on the digits of a literal.  A finite [float]
      is identified with the decimal number that [repr] prints for it
      (sign, digits, exponent).
    - A DataFrame is its list of column labels and its list of rows; a row
      maps a label to a cell, a missing entry reading as NaN.  Labels of a
      frame are distinct, as the provider's are.  A column has the type its
      cells show: [int64] for ints, [float64] for floats and missing
      values, [object] for anything else.
    - Exceptions are values of [result], told apart by whether they are
      instances of [Exception]; printing, the progress bar and the CSV
      file are events of a trace ([M]).
    - The data provider and the line of pandas that is installed
      ([installed]) are parameters of the script. *)

From Stdlib Require Import ZArith QArith String Ascii List Lia OrderedTypeEx.
From stdpp Require Import base option list gmap strings sorting.

Local Open Scope string_scope.
Local Open Scope Z_scope.

(** ** Python strings and integers *)

Module Py.

(** [s[:n]] *)
Definition slice_to (n : nat) (s : string) : string := String.substring 0 n s.

(** [c * n] for a one-character string [c] *)
Fixpoint repeat_char (n : nat) (c : ascii) : string :=
  match n with
  | O => EmptyString
  | S n' => String c (repeat_char n' c)
  end.

Definition digit_char (d : Z) : ascii := ascii_of_N (48 + Z.to_N d).

(** Decimal digits of a non-negative integer, most significant first. *)
Fixpoint digits (fuel : nat) (n : Z) : string :=
  match fuel with
  | O => EmptyString
  | S fuel' =>
      if n <? 10 then String (digit_char n) EmptyString
      else digits fuel' (n / 10) ++ String (digit_char (n mod 10)) EmptyString
  end.

(** [str(n)] for an [int] *)
Definition str_int (n : Z) : string :=
  if n <? 0 then String "-" (digits (S (Z.to_nat (Z.log2 (- n)))) (- n))
  else digits (S (Z.to_nat (Z.log2 n))) n.

(** [s.rjust(width, fill)], which is what the format spec [fill>width]
    does to an already formatted value. *)
Definition rjust (width : nat) (fill : ascii) (s : string) : string :=
  repeat_char (width - String.length s) fill ++ s.

(** ["{:0>6}".format(n)] for an [int]: the value is formatted with its
    sign, then padded on the left with zeros. *)
Definition format_0gt6 (n : Z) : string := rjust 6 "0" (str_int n).

(** [s.zfill(width)]: zeros go after a leading sign. *)
Definition zfill (width : nat) (s : string) : string :=
  if (width <=? String.length s)%nat then s
  else
    let fill := repeat_char (width - String.length s) "0" in
    match s with
    | String c rest =>
        if (Ascii.eqb c "+" || Ascii.eqb c "-")%bool then String c (fill ++ rest)
        else fill ++ s
    | EmptyString => fill
    end.

(** White space that [int()] skips around a literal: the ASCII blanks, and
    NEL and NBSP among the code points above 127. *)
Definition is_space (c : ascii) : bool :=
  let n := N_of_ascii c in
  ((9 <=? n) && (n <=? 13) || (n =? 32) || (n =? 133) || (n =? 160))%N%bool.

Definition is_digit (c : ascii) : bool :=
  let n := N_of_ascii c in ((48 <=? n) && (n <=? 57))%N%bool.

Definition digit_value (c : ascii) : Z := Z.of_N (N_of_ascii c) - 48.

Fixpoint lstrip (s : string) : string :=
  match s with
  | String c rest => if is_space c then lstrip rest else s
  | EmptyString => EmptyString
  end.

Fixpoint rstrip (s : string) : string :=
  match s with
  | String c rest =>
      match rstrip rest with
      | EmptyString => if is_space c then EmptyString else String c EmptyString
      | r => String c r
      end
  | EmptyString => EmptyString
  end.

Definition strip (s : string) : string := lstrip (rstrip s).

(** The digits of an integer literal after its sign: a digit first, then
    digits, each optionally preceded by one underscore. *)
Fixpoint literal_value (acc : Z) (s : string) : option Z :=
  match s with
  | EmptyString => Some acc
  | String c rest =>
      if is_digit c then literal_value (10 * acc + digit_value c) rest
      else if Ascii.eqb c "_" then
        match rest with
        | String d rest' =>
            if is_digit d then literal_value (10 * acc + digit_value d) rest'
            else None
        | EmptyString => None
        end
      else None
  end.

Definition unsigned_literal (s : string) : option Z :=
  match s with
  | String c rest => if is_digit c then literal_value (digit_value c) rest else None
  | EmptyString => None
  end.

(** The literal of [s] after white space and sign, and whether the sign
    is a minus. *)
Definition signed_body (s : string) : bool * string :=
  match strip s with
  | String c rest =>
      if Ascii.eqb c "-" then (true, rest)
      else if Ascii.eqb c "+" then (false, rest)
      else (false, String c rest)
  | EmptyString => (false, EmptyString)
  end.

(** The digits [int()] counts before it converts: those of the leading
    run of digits and single underscores; [None] where that run is
    malformed. *)
Fixpoint scan_digits (no_digit_before : bool) (s : string) : option nat :=
  match s with
  | EmptyString => if no_digit_before then None else Some O
  | String c rest =>
      if is_digit c then S <$> scan_digits false rest
      else if Ascii.eqb c "_" then
        if no_digit_before then None else scan_digits true rest
      else if no_digit_before then None else Some O
  end.

(** [sys.get_int_max_str_digits()], as the interpreter starts. *)
Definition max_str_digits : nat := 4300.

(** The number of digits of [s] where [int(s)] refuses to convert for
    their number. *)
Definition over_limit (s : string) : option nat :=
  match scan_digits true (signed_body s).2 with
  | Some n => if (max_str_digits <? n)%nat then Some n else None
  | None => None
  end.

(** [int(s)] for a [str], base 10; [None] stands for its [ValueError]. *)
Definition parse_int (s : string) : option Z :=
  let '(minus, body) := signed_body s in
  match over_limit s with
  | Some _ => None
  | None => (if minus then Z.opp else id) <$> unsigned_literal body
  end.

Definition hex_digit (n : N) : ascii :=
  ascii_of_N (if (n <? 10)%N then 48 + n else 87 + n)%N.

Fixpoint contains (c : ascii) (s : string) : bool :=
  match s with
  | String d rest => (Ascii.eqb c d || contains c rest)%bool
  | EmptyString => false
  end.

(** Code points below 256 that [repr] prints as they are. *)
Definition is_printable (n : N) : bool :=
  ((32 <=? n) && (n <? 127) || (161 <=? n) && negb (n =? 173))%N%bool.

Fixpoint repr_body (quote : ascii) (s : string) : string :=
  match s with
  | EmptyString => EmptyString
  | String c rest =>
      let n := N_of_ascii c in
      (if (Ascii.eqb c quote || Ascii.eqb c "\")%bool then String "\" (String c EmptyString)
       else if (n =? 9)%N then "\t"
       else if (n =? 10)%N then "\n"
       else if (n =? 13)%N then "\r"
       else if is_printable n then String c EmptyString
       else String "\" (String "x" (String (hex_digit (n / 16)) (String (hex_digit (n mod 16)) EmptyString))))
      ++ repr_body quote rest
  end.

Definition dquote : ascii := ascii_of_N 34.

(** [repr(s)] for a [str] *)
Definition repr (s : string) : string :=
  let quote : ascii :=
    if (contains "'" s && negb (contains dquote s))%bool then dquote else "'"%char in
  String quote (repr_body quote s ++ String quote EmptyString).

End Py.

(** ** Floats, as the decimal [repr] prints *)

Module Float.

(** The value is [(-1)^negative * mantissa * 10^exponent]. *)
Record t := mk { negative : bool; mantissa : N; exponent : Z }.

Definition value (f : t) : Q :=
  let m := (if negative f then - Z.of_N (mantissa f) else Z.of_N (mantissa f))%Z in
  if (0 <=? exponent f)%Z then inject_Z (m * 10 ^ exponent f)
  else Qmake m (Z.to_pos (10 ^ (- exponent f))).

(** The shortest digit string: trailing zeros move to the exponent. *)
Fixpoint shortest (fuel : nat) (m e : Z) : Z * Z :=
  match fuel with
  | O => (m, e)
  | S fuel' =>
      if m =? 0 then (0, 0)
      else if m mod 10 =? 0 then shortest fuel' (m / 10) (e + 1)
      else (m, e)
  end.

Definition exponent_str (e : Z) : string :=
  let a := Py.str_int (Z.abs e) in
  String (if e <? 0 then "-"%char else "+"%char)
         (if (String.length a <? 2)%nat then String "0" a else a).

(** [str(x)] for a finite float: positional between 1e-4 and 1e16,
    scientific outside. *)
Definition str (f : t) : string :=
  let m := Z.of_N (mantissa f) in
  let '(m, e) := shortest (S (Z.to_nat (Z.log2 m))) m (exponent f) in
  let ds := Py.str_int m in
  let nd := Z.of_nat (String.length ds) in
  let decpt := nd + e in
  let body :=
    if (decpt <=? -4) || (16 <? decpt) then
      String.substring 0 1 ds
      ++ (if 1 <? nd then String "." (String.substring 1 (String.length ds - 1) ds)
          else EmptyString)
      ++ String "e" (exponent_str (decpt - 1))
    else if decpt <=? 0 then
      String "0" (String "." (Py.repeat_char (Z.to_nat (- decpt)) "0" ++ ds))
    else if decpt <? nd then
      String.substring 0 (Z.to_nat decpt) ds
      ++ String "." (String.substring (Z.to_nat decpt) (String.length ds - Z.to_nat decpt) ds)
    else ds ++ Py.repeat_char (Z.to_nat (decpt - nd)) "0" ++ ".0" in
  if negative f then String "-" body else body.

(** [float(n)] for an [int]: the nearest double, ties to even.  Up to
    2^53 that is [n] itself. *)
Definition of_int (n : Z) : t :=
  let a := Z.abs n in
  let k := Z.log2 a - 52 in
  let m :=
    if k <=? 0 then a
    else
      let q := Z.shiftr a k in
      let r := a - Z.shiftl q k in
      let half := Z.shiftl 1 (k - 1) in
      Z.shiftl (if (half <? r) || ((half =? r) && Z.odd q) then q + 1 else q) k in
  mk (n <? 0) (Z.to_N m) 0.

(** [int(x)]: towards zero *)
Definition trunc (f : t) : Z :=
  let m := Z.of_N (mantissa f) in
  let a := if 0 <=? exponent f then m * 10 ^ exponent f
           else m / 10 ^ (- exponent f) in
  if negative f then - a else a.

End Float.

(** ** Cells and DataFrames *)

Inductive cell :=
| CNaN
| CInt (n : Z)
| CFloat (x : Float.t)
| CStr (s : string).

Coercion CStr : string >-> cell.

(** [str(v)] *)
Definition str_cell (v : cell) : string :=
  match v with
  | CNaN => "nan"
  | CInt n => Py.str_int n
  | CFloat x => Float.str x
  | CStr s => s
  end.

Definition number_value (v : cell) : option Q :=
  match v with
  | CInt n => Some (inject_Z n)
  | CFloat x => Some (Float.value x)
  | _ => None
  end.

(** The order in which a sort key column is ranked: numbers by value, then
    strings by code point, missing values last ([na_position="last"]). *)
Definition cell_leb (a b : cell) : bool :=
  match a, b with
  | _, CNaN => true
  | CNaN, _ => false
  | CStr s, CStr t => String.leb s t
  | CStr _, _ => false
  | _, CStr _ => true
  | _, _ =>
      match number_value a, number_value b with
      | Some x, Some y => Qle_bool x y
      | _, _ => true
      end
  end.

Definition cell_ltb (a b : cell) : bool := negb (cell_leb b a).

Record DataFrame := mkDataFrame {
  columns : list string;
  rows : list (gmap string cell)
}.

(** [pd.DataFrame()] *)
Definition DataFrame_new : DataFrame := mkDataFrame [] [].

(** [row[col]], NaN where the row holds nothing. *)
Definition at_ (r : gmap string cell) (col : string) : cell := default CNaN (r !! col).

(** [df.empty]: some axis has length 0. *)
Definition empty_ (df : DataFrame) : bool :=
  match columns df, rows df with
  | [], _ | _, [] => true
  | _, _ => false
  end.

(** [len(df)] *)
Definition len (df : DataFrame) : nat := length (rows df).

(** [df[col] = v] for a scalar [v]: every row gets [v]; a new label goes
    last. *)
Definition setitem (col : string) (v : cell) (df : DataFrame) : DataFrame :=
  mkDataFrame
    (if decide (col ∈ columns df) then columns df else (columns df ++ [col])%list)
    (map (λ r, <[col := v]> r) (rows df)).

(** One cell under [astype(str)].  Before pandas 3 every cell goes through
    [str], a missing one becoming the string nan; from pandas 3 on a
    missing cell stays missing. *)
Definition astype_str (pandas3 : bool) (v : cell) : cell :=
  match v with
  | CNaN => if pandas3 then CNaN else CStr "nan"
  | _ => CStr (str_cell v)
  end.

(** One cell of a column of strings under [+ suffix] and under
    [.str.zfill(width)]: a missing cell stays missing. *)
Definition str_add (suffix : string) (v : cell) : cell :=
  match v with
  | CStr s => CStr (s ++ suffix)
  | _ => CNaN
  end.

Definition str_zfill (width : nat) (v : cell) : cell :=
  match v with
  | CStr s => CStr (Py.zfill width s)
  | _ => CNaN
  end.

(** [df[col] = df[col].astype(str) + suffix] *)
Definition astype_str_add (pandas3 : bool) (col suffix : string) (df : DataFrame) :
    DataFrame :=
  mkDataFrame (columns df)
    (map (λ r, <[col := str_add suffix (astype_str pandas3 (at_ r col))]> r) (rows df)).

(** [df[col] = df[col].astype(str).str.zfill(width)] *)
Definition astype_str_zfill (pandas3 : bool) (col : string) (width : nat)
    (df : DataFrame) : DataFrame :=
  mkDataFrame (columns df)
    (map (λ r, <[col := str_zfill width (astype_str pandas3 (at_ r col))]> r) (rows df)).

(** Labels in first-seen order, each once. *)
Fixpoint unique (l : list string) : list string :=
  match l with
  | [] => []
  | x :: l' => x :: filter (λ y, y ≠ x) (unique l')
  end.

(** A row seen through the labels [cols] only. *)
Definition reindex (cols : list string) (r : gmap string cell) : gmap string cell :=
  filter (λ kv, kv.1 ∈ cols) r.

(** ** Exceptions and output *)

(** An exception, by the name of its class and the text [str(e)]:
    [Exception] for an instance of a class derived from [Exception],
    [BaseException] for any other (SystemExit, KeyboardInterrupt,
    GeneratorExit and what derives from them). *)
Inductive exn :=
| Exception (class text : string)
| BaseException (class text : string).

Definition exn_class (e : exn) : string :=
  match e with Exception class _ | BaseException class _ => class end.

Definition exn_str (e : exn) : string :=
  match e with Exception _ text | BaseException _ text => text end.

(** [isinstance(e, Exception)] *)
Definition is_exception (e : exn) : bool :=
  match e with Exception _ _ => true | BaseException _ _ => false end.

Inductive result (A : Type) :=
| Ok (a : A)
| Raise (e : exn).
Arguments Ok {A} a.
Arguments Raise {A} e.

(** [KeyError(label)], whose text is the [repr] of the label: the label
    between single quotes, for the labels of the script. *)
Definition KeyError (label : string) : exn :=
  Exception "KeyError" ("'" ++ label ++ "'").

Definition ValueError (msg : string) : exn := Exception "ValueError" msg.

(** [int(v)]: a [str] is read as a literal, a [float] loses its
    fraction. *)
Definition int (v : cell) : result Z :=
  match v with
  | CStr s =>
      match Py.parse_int s, Py.over_limit s with
      | Some n, _ => Ok n
      | None, Some n =>
          Raise (ValueError
                   ("Exceeds the limit (" ++ Py.str_int (Z.of_nat Py.max_str_digits)
                    ++ " digits) for integer string conversion: value has "
                    ++ Py.str_int (Z.of_nat n)
                    ++ " digits; use sys.set_int_max_str_digits() to increase the limit"))
      | None, None =>
          Raise (ValueError ("invalid literal for int() with base 10: "
                             ++ Py.slice_to 200 (Py.repr s)))
      end
  | CInt n => Ok n
  | CFloat x => Ok (Float.trunc x)
  | CNaN => Raise (ValueError "cannot convert float NaN to integer")
  end.

(** What the script shows or writes. *)
Inductive event :=
| Print (text : string)
| PrintValues (label : string) (values : list (list cell))
| PrintFrame (df : DataFrame)
| PbarOpen (total : nat)
| PbarUpdate
| ToCsv (path : string) (df : DataFrame).

(** A computation: the events it emitted, and its value or the exception
    that ended it. *)
Definition M (A : Type) : Type := list event * result A.

Definition ret {A} (a : A) : M A := ([], Ok a).

Definition bind {A B} (m : M A) (k : A → M B) : M B :=
  match m with
  | (out, Ok a) => let '(out', r) := k a in ((out ++ out')%list, r)
  | (out, Raise e) => (out, Raise e)
  end.

Notation "x <- m ;; k" := (bind m (λ x, k))
  (at level 100, m at next level, right associativity).

Definition emit (ev : event) : M unit := ([ev], Ok tt).

Definition print (text : string) : M unit := emit (Print text).

Definition lift {A} (r : result A) : M A := ([], r).

(** [try: body  except Exception as e: handler(e)]: an exception that is
    no instance of [Exception] passes through. *)
Definition try_except {A} (body : M A) (handler : exn → M A) : M A :=
  match body with
  | (out, Ok a) => (out, Ok a)
  | (out, Raise e) =>
      if is_exception e then
        let '(out', r) := handler e in ((out ++ out')%list, r)
      else (out, Raise e)
  end.

(** ** Library operations on frames *)

Section Sort.
Context {A : Type} (leb : A → A → bool).

Fixpoint insert_sorted (x : A) (l : list A) : list A :=
  match l with
  | [] => [x]
  | y :: l' => if leb x y then x :: l else y :: insert_sorted x l'
  end.

(** A stable sort: equal elements keep their order. *)
Definition stable_sort (l : list A) : list A := foldr insert_sorted [] l.
End Sort.

Definition key_leb (col : string) (a b : gmap string cell) : bool :=
  cell_leb (at_ a col) (at_ b col).

(** [np.lexsort]: one stable sort per key, the last key being the primary
    one. *)
Definition lexsort (keys : list string) (l : list (gmap string cell)) :
    list (gmap string cell) :=
  foldl (λ acc k, stable_sort (key_leb k) acc) l keys.

(** [df.sort_values(by, ascending=True, inplace=True)] for several labels:
    the rows are ranked on each label and ordered by [np.lexsort] of the
    ranks, first label first. *)
Definition sort_values (by_ : list string) (df : DataFrame) : result DataFrame :=
  match List.find (λ k, bool_decide (k ∉ columns df)) by_ with
  | Some k => Raise (KeyError k)
  | None => Ok (mkDataFrame (columns df) (lexsort (reverse by_) (rows df)))
  end.

(** [df[label]] for one label: the cells of the column *)
Definition getcol (label : string) (df : DataFrame) : result (list cell) :=
  if decide (label ∈ columns df) then Ok (map (λ r, at_ r label) (rows df))
  else Raise (KeyError label).

(** [repr] of a list of labels, and of the [Index] made of them *)
Definition list_repr (labels : list string) : string :=
  "[" ++ String.concat ", " (map Py.repr labels) ++ "]".

Definition index_repr (pandas3 : bool) (labels : list string) : string :=
  "Index(" ++ list_repr labels ++ ", dtype='"
  ++ (if pandas3 then "str" else "object") ++ "')".

(** [df[cols]] for a list of labels.  The [KeyError] names the labels that
    are missing, or all of [cols] if none is there; its text is the [repr]
    of that message. *)
Definition getitem (pandas3 : bool) (cols : list string) (df : DataFrame) :
    result DataFrame :=
  match filter (λ k, k ∉ columns df) cols with
  | [] => Ok (mkDataFrame cols (map (reindex cols) (rows df)))
  | missing =>
      Raise (Exception "KeyError"
               (Py.repr
                  (if decide (missing = cols) then
                     "None of [" ++ index_repr pandas3 cols ++ "] are in the [columns]"
                   else list_repr (unique missing) ++ " not in index")))
  end.

(** The type of a column, read off its cells: [int64] if all are ints,
    [float64] if all are floats or missing, [object] otherwise. *)
Inductive dtype := Int64 | Float64 | Object.

Definition column_dtype (col : string) (df : DataFrame) : dtype :=
  if forallb (λ r, match at_ r col with CInt _ => true | _ => false end) (rows df)
  then Int64
  else if forallb (λ r, match at_ r col with CFloat _ | CNaN => true | _ => false end)
                  (rows df)
  then Float64
  else Object.

(** Whether [pd.concat] turns the ints of column [col] into floats: the
    frames that have the column hold numbers there, and some frame holds
    floats or does not have it. *)
Definition upcasts (frames : list DataFrame) (col : string) : bool :=
  forallb (λ df, bool_decide (col ∉ columns df)
                 || match column_dtype col df with Object => false | _ => true end)
          frames
  && negb (forallb (λ df, bool_decide (col ∈ columns df)
                          && match column_dtype col df with Int64 => true | _ => false end)
                   frames).

Definition upcast (v : cell) : cell :=
  match v with
  | CInt n => CFloat (Float.of_int n)
  | _ => v
  end.

(** A row of the frame [df] as it stands in the concatenation of
    [frames]. *)
Definition concat_row (frames : list DataFrame) (df : DataFrame)
    (r : gmap string cell) : gmap string cell :=
  map_imap (λ col v, Some (if upcasts frames col then upcast v else v))
           (reindex (columns df) r).

(** [pd.concat(frames, ignore_index=True)]: the labels of all frames in
    first-seen order, the rows of all frames in order, each seen through
    the labels of its own frame, in the common type of each column. *)
Definition concat (frames : list DataFrame) : result DataFrame :=
  match frames with
  | [] => Raise (ValueError "No objects to concatenate")
  | _ =>
      Ok (mkDataFrame
            (unique (mjoin (map columns frames)))
            (mjoin (map (λ df, map (concat_row frames df) (rows df)) frames)))
  end.

(** [pd.concat(parts)] for slices [parts] of one frame [df]: their rows
    in order; no label is added and no column changes its type. *)
Definition concat_slices (df : DataFrame) (parts : list DataFrame) : DataFrame :=
  mkDataFrame (columns df) (mjoin (map rows parts)).

(** [df.head(n)] and [df.tail(n)] *)
Definition head (n : nat) (df : DataFrame) : DataFrame :=
  mkDataFrame (columns df) (take n (rows df)).

Definition tail (n : nat) (df : DataFrame) : DataFrame :=
  mkDataFrame (columns df) (drop (length (rows df) - n) (rows df)).

(** [df.values.tolist()] *)
Definition values_tolist (df : DataFrame) : list (list cell) :=
  map (λ r, map (at_ r) (columns df)) (rows df).

(** [f"{n:,}"] *)
Fixpoint group_thousands (s : string) : string :=
  match s with
  | EmptyString => EmptyString
  | String c rest =>
      String c
        (if ((0 <? String.length rest) && (String.length rest mod 3 =? 0))%nat
         then String "," (group_thousands rest)
         else group_thousands rest)
  end.

(** ** The script *)

Definition col_code : string := "股票代码".
Definition col_name : string := "股票名称".
Definition col_date : string := "日期".
Definition col_turnover : string := "换手率".
Definition col_change : string := "涨跌幅".

Definition newline : string := String (ascii_of_N 10) EmptyString.

(** What is installed under the script: the two calls of the data
    provider that it makes ([stock_zh_a_hist symbol start_date end_date
    adjust] returns a frame or raises), and whether pandas is of the
    3.x line. *)
Record installed := {
  stock_info_a_code_name : result DataFrame;
  stock_zh_a_hist : cell → string → string → string → result DataFrame;
  pandas3 : bool
}.

Section Script.
Variable ak : installed.

Definition get_all_a_stock_codes : M DataFrame :=
  stock_info <- lift (stock_info_a_code_name ak) ;;
  _ <- lift (getcol "code" stock_info) ;;
  let stock_info := astype_str_zfill (pandas3 ak) "code" 6 stock_info in
  lift (getitem (pandas3 ak) ["code"; "name"] stock_info).

(** [symbol] is a cell of the ticker list: a [str], or a missing value
    where pandas kept one. *)
Definition get_stock_history (symbol : cell) (name : cell)
    (start_date end_date : string) : M DataFrame :=
  returned <-
    try_except
      (df <- lift (stock_zh_a_hist ak symbol start_date end_date EmptyString) ;;
       if negb (empty_ df) then
         code <- lift (int symbol) ;;
         let df := setitem col_code (CStr (Py.format_0gt6 code)) df in
         let df := setitem col_name name df in
         let df :=
           foldl (λ df col,
                    if decide (col ∈ columns df)
                    then astype_str_add (pandas3 ak) col "%" df
                    else df)
                 df [col_turnover; col_change] in
         ret (Some df)
       else ret None)
      (λ e,
         _ <- print ("股票 " ++ str_cell symbol ++ " 获取失败: "
                     ++ Py.slice_to 50 (exn_str e) ++ "...") ;;
         ret None) ;;
  match returned with
  | Some df => ret df
  | None => ret DataFrame_new
  end.

Definition start_date : string := "20250322".
Definition end_date : string := "20250328".
Definition output_file : string :=
  "A股历史数据_" ++ start_date ++ "_" ++ end_date ++ "_v2.csv".
Definition max_workers : nat := 20.

(** The futures of [main], in submission order: each holds what its
    worker printed and returned.  The pool size bounds how many run at
    once and has no part in what they return. *)
Definition submit_all (stock_codes : DataFrame) : list (M DataFrame) :=
  map (λ row,
         get_stock_history (at_ row "code") (at_ row "name") start_date end_date)
      (rows stock_codes).

(** [as_completed(futures)]: the futures in the order they finish, given
    as the list of their submission indexes. *)
Definition as_completed {A} (order : list nat) (futures : list A) : list A :=
  omap (λ i, futures !! i) order.

(** The loop over the completed futures.  The lines of a worker stand
    where its future is collected.  An exception that the handler does not
    take leaves the loop after the [finally] clause, and the pool waits for
    the workers still running. *)
Fixpoint collect (done : list (M DataFrame)) (all_data : list DataFrame) :
    M (list DataFrame) :=
  match done with
  | [] => ret all_data
  | future :: done' =>
      all_data <-
        (match future with
         | (out, Ok result) =>
             (out, Ok (if negb (empty_ result) then (all_data ++ [result])%list
                       else all_data))
         | (out, Raise e) =>
             if is_exception e then
               _ <- (out, Ok tt) ;;
               _ <- print ("处理异常: " ++ Py.slice_to 50 (exn_str e) ++ "...") ;;
               ret all_data
             else
               ((out ++ PbarUpdate :: mjoin (map fst done'))%list, Raise e)
         end) ;;
      _ <- emit PbarUpdate ;;
      collect done' all_data
  end.

Definition base_columns : list string := [col_code; col_name; col_date].

(** Step 3 of [main]: merge and save. *)
Definition merge_and_save (all_data : list DataFrame) : M unit :=
  match all_data with
  | _ :: _ =>
      df_final <- lift (concat all_data) ;;
      df_final <- lift (sort_values [col_code; col_date] df_final) ;;
      let other_columns :=
        filter (λ col, col ∉ base_columns) (columns df_final) in
      df_final <-
        lift (getitem (pandas3 ak) (base_columns ++ other_columns)%list df_final) ;;
      _ <- emit (ToCsv output_file df_final) ;;
      _ <- print (newline ++ "数据已保存至: " ++ output_file) ;;
      _ <- print ("总记录数: "
                  ++ group_thousands (Py.str_int (Z.of_nat (len df_final)))) ;;
      _ <- print (newline ++ "首尾各3条数据预览：") ;;
      emit (PrintFrame (concat_slices df_final [head 3 df_final; tail 3 df_final]))
  | [] => print "未获取到有效数据"
  end.

(** [main], for one completion order of the workers. *)
Definition main (order : list nat) : M unit :=
  _ <- print "正在加载A股代码列表..." ;;
  stock_codes <- get_all_a_stock_codes ;;
  _ <- print ("共获取到 " ++ Py.str_int (Z.of_nat (len stock_codes))
              ++ " 只A股（代码已补零）") ;;
  _ <- emit (PrintValues "示例代码：" (values_tolist (head 3 stock_codes))) ;;
  let futures := submit_all stock_codes in
  _ <- emit (PbarOpen (length futures)) ;;
  all_data <- collect (as_completed order futures) [] ;;
  merge_and_save all_data.

End Script.

(** ** Vocabulary of the properties *)

(** Every character of [s] is a decimal digit. *)
Fixpoint all_digits (s : string) : bool :=
  match s with
  | EmptyString => true
  | String c rest => Py.is_digit c && all_digits rest
  end.

(** Ordered on [leb], and on [R] among the elements [leb] does not
    separate. *)
Definition refined {A} (leb : A → A → bool) (R : A → A → Prop) (a b : A) : Prop :=
  leb a b = true ∧ (leb b a = true → R a b).

(** The line [get_stock_history] prints when it catches [e]. *)
Definition diagnostic (symbol : string) (e : exn) : event :=
  Print ("股票 " ++ symbol ++ " 获取失败: " ++ Py.slice_to 50 (exn_str e) ++ "...").

(** The post-processing of [get_stock_history], on a frame and on a row. *)
Definition post_process (pandas3 : bool) (code : Z) (name : cell) (df : DataFrame) :
    DataFrame :=
  foldl (λ df col,
           if decide (col ∈ columns df) then astype_str_add pandas3 col "%" df
           else df)
        (setitem col_name name (setitem col_code (CStr (Py.format_0gt6 code)) df))
        [col_turnover; col_change].

(** A percent field after the worker. *)
Definition percent_cell (pandas3 : bool) (v : cell) : cell :=
  str_add "%" (astype_str pandas3 v).

Definition percent (pandas3 : bool) (col : string) (cols : list string)
    (r : gmap string cell) : gmap string cell :=
  if decide (col ∈ cols) then <[col := percent_cell pandas3 (at_ r col)]> r else r.

Definition processed_row (pandas3 : bool) (code : Z) (name : cell)
    (cols : list string) (r : gmap string cell) : gmap string cell :=
  percent pandas3 col_change cols
    (percent pandas3 col_turnover cols
       (<[col_name := name]> (<[col_code := CStr (Py.format_0gt6 code)]> r))).

(** The value a finished future holds, if its worker returned one. *)
Definition returned (future : M DataFrame) : option DataFrame :=
  match future.2 with
  | Ok df => Some df
  | Raise _ => None
  end.

(** A future that ends in an exception no handler of the script takes. *)
Definition aborted (future : M DataFrame) : bool :=
  match future.2 with
  | Raise e => negb (is_exception e)
  | Ok _ => false
  end.

(** The exception that ends the loop of [main] over the futures [done],
    if one does. *)
Fixpoint abort_of (done : list (M DataFrame)) : option exn :=
  match done with
  | [] => None
  | future :: done' =>
      match future.2 with
      | Raise e => if is_exception e then abort_of done' else Some e
      | Ok _ => abort_of done'
      end
  end.

(** The futures the loop of [main] gets to: those up to the first aborted
    one. *)
Fixpoint attended (done : list (M DataFrame)) : list (M DataFrame) :=
  match done with
  | [] => []
  | future :: done' => future :: (if aborted future then [] else attended done')
  end.

(** What the loop of [main] shows for a future it gets to: the lines of
    the worker, then one step of the progress bar. *)
Definition shown_for (future : M DataFrame) : list event :=
  (future.1 ++ [PbarUpdate])%list.

(** What the loop shows for the futures [done]: each future it gets to,
    then the lines of the workers it leaves behind. *)
Definition loop_shown (done : list (M DataFrame)) : list event :=
  (mjoin (shown_for <$> attended done)
   ++ mjoin (fst <$> drop (length (attended done)) done))%list.

(** The [KeyError] of [stock_info[["code", "name"]]] for a list without
    names. *)
Definition name_not_in_index : exn :=
  Exception "KeyError" (Py.repr "['name'] not in index").

(** A provider whose history call, when it raises, raises an instance of
    [Exception]. *)
Definition only_exceptions (ak : installed) : Prop :=
  ∀ symbol start_date end_date adjust e,
    stock_zh_a_hist ak symbol start_date end_date adjust = Raise e →
    is_exception e = true.

(** The non-empty frames among the values of the futures [done]. *)
Definition non_empty_results (done : list (M DataFrame)) : list DataFrame :=
  filter (λ df, empty_ df = false) (omap returned done).

(** Two rows that the sort keys do not tell apart. *)
Definition same_key (a b : gmap string cell) : Prop :=
  key_leb col_code a b = true ∧ key_leb col_code b a = true
  ∧ key_leb col_date a b = true ∧ key_leb col_date b a = true.

Global Instance same_key_dec a b : Decision (same_key a b).
Proof. unfold same_key. apply _. Defined.

(** The padding of [get_stock_history]: ["{:0>6}".format(int(x))]. *)
Definition pad (x : string) : result string :=
  match int x with
  | Ok n => Ok (Py.format_0gt6 n)
  | Raise e => Raise e
  end.

(** ** A sample run

    A provider with four tickers: two with data, one whose code is not a
    number, one whose request fails. *)

Definition row (l : list (string * cell)) : gmap string cell := list_to_map l.

Definition f12_34 : Float.t := Float.mk false 1234 (-2).

Definition sample_info : DataFrame :=
  mkDataFrame ["code"; "name"]
    [row [("code", CStr "600000"); ("name", CStr "SPDB")];
     row [("code", CInt 1); ("name", CStr "PAB")];
     row [("code", CStr "abc"); ("name", CStr "X")];
     row [("code", CStr "300001"); ("name", CStr "Y")]].

Definition sample_rows_600000 : DataFrame :=
  mkDataFrame [col_date; "open"; col_turnover]
    [row [(col_date, CStr "2025-03-26"); ("open", CFloat (Float.mk false 105 (-1)));
          (col_turnover, CFloat f12_34)];
     row [(col_date, CStr "2025-03-24"); ("open", CInt 10); (col_turnover, CNaN)]].

Definition sample_hist (symbol : cell) (start_date end_date adjust : string) :
    result DataFrame :=
  let symbol := str_cell symbol in
  if String.eqb symbol "600000" then Ok sample_rows_600000
  else if String.eqb symbol "000001" then
    Ok (mkDataFrame [col_date; col_change]
          [row [(col_date, CStr "2025-03-25");
                (col_change, CFloat (Float.mk true 5 (-1)))];
           row [(col_date, CStr "2025-03-25");
                (col_change, CFloat (Float.mk false 15 (-1)))]])
  else if String.eqb symbol "000abc" then
    Ok (mkDataFrame [col_date] [row [(col_date, CStr "2025-03-25")]])
  else Raise (Exception "ConnectionError"
                "HTTPSConnectionPool(host='push2his.eastmoney.com', port=443): Max retries exceeded").

(** The sample provider under pandas 2, and under pandas 3. *)
Definition sample_ak : installed := Build_installed (Ok sample_info) sample_hist false.

Definition sample_ak3 : installed := Build_installed (Ok sample_info) sample_hist true.

(** The workers finish in the order 2, 0, 3, 1. *)
Definition sample_order : list nat := [2; 0; 3; 1]%nat.

(** The frame the sample run writes. *)
Definition sample_final : DataFrame :=
  match (main sample_ak sample_order).1 !! 10%nat with
  | Some (ToCsv _ df) => df
  | _ => DataFrame_new
  end.

(** Its second and third rows. *)
Definition sample_row_1 : gmap string cell :=
  row [(col_code, CStr "000001"); (col_name, CStr "PAB");
       (col_date, CStr "2025-03-25"); (col_change, CStr "1.5%")].

Definition sample_row_2 : gmap string cell :=
  row [(col_code, CStr "600000"); (col_name, CStr "SPDB");
       (col_date, CStr "2025-03-24"); ("open", CInt 10);
       (col_turnover, CStr "nan%")].

(** The ticker list of the sample run. *)
Definition sample_codes : DataFrame :=
  match (get_all_a_stock_codes sample_ak).2 with
  | Ok stock_codes => stock_codes
  | Raise _ => DataFrame_new
  end.

(** A provider that has no rows for any ticker. *)
Definition silent_ak : installed :=
  Build_installed (Ok sample_info) (λ _ _ _ _, Ok DataFrame_new) false.

(** Events by kind. *)
Definition is_pbar_open (ev : event) : bool :=
  match ev with PbarOpen _ => true | _ => false end.

Definition is_pbar_update (ev : event) : bool :=
  match ev with PbarUpdate => true | _ => false end.

Definition is_to_csv (ev : event) : bool :=
  match ev with ToCsv _ _ => true | _ => false end.

(** A provider whose frames have no date column. *)
Definition dateless_ak : installed :=
  Build_installed (Ok sample_info)
    (λ _ _ _ _, Ok (mkDataFrame ["open"] [row [("open", CInt 10)]])) false.

(** A provider whose ticker list cannot be loaded. *)
Definition offline_ak : installed :=
  Build_installed (Raise (Exception "ConnectionError" "Connection aborted."))
    sample_hist false.

(** A provider whose history call ends the interpreter. *)
Definition exiting_ak : installed :=
  Build_installed (Ok sample_info)
    (λ _ _ _ _, Raise (BaseException "SystemExit" "1")) false.

(** * Properties *)

(** ** Strings and integer literals *)

Section PyFacts.
Import Py.

Lemma length_append (s t : string) :
  String.length (s ++ t) = (String.length s + String.length t)%nat.
Proof. induction s as [|c s IH]; simpl; [done | by rewrite IH]. Qed.

Lemma length_repeat_char n c : String.length (repeat_char n c) = n.
Proof. induction n as [|n IH]; simpl; [done | by rewrite IH]. Qed.

Lemma all_digits_app s t : all_digits (s ++ t) = all_digits s && all_digits t.
Proof. induction s as [|c s IH]; simpl; [done | by rewrite IH, andb_assoc]. Qed.

Lemma all_digits_zeros n : all_digits (repeat_char n "0") = true.
Proof. induction n as [|n IH]; simpl; done. Qed.

Lemma digit_char_spec d :
  0 ≤ d < 10 → is_digit (digit_char d) = true ∧ digit_value (digit_char d) = d.
Proof.
  intros Hd.
  assert (d = 0 ∨ d = 1 ∨ d = 2 ∨ d = 3 ∨ d = 4 ∨ d = 5 ∨ d = 6 ∨ d = 7
          ∨ d = 8 ∨ d = 9) as Hcases by lia.
  repeat (destruct Hcases as [-> | Hcases]; [by split |]).
  by subst d.
Qed.

Lemma digit_not_space c : is_digit c = true → is_space c = false.
Proof.
  unfold is_digit, is_space. intros H.
  apply andb_true_iff in H as [H1 H2].
  apply N.leb_le in H1. apply N.leb_le in H2.
  repeat match goal with
         | |- context [(?a <=? ?b)%N] => destruct (N.leb_spec a b)
         | |- context [(?a =? ?b)%N] => destruct (N.eqb_spec a b)
         end; simpl; try reflexivity; lia.
Qed.

Lemma digit_not_sign c :
  is_digit c = true → Ascii.eqb c "-" = false ∧ Ascii.eqb c "+" = false.
Proof.
  unfold is_digit. intros H.
  apply andb_true_iff in H as [H1 H2].
  apply N.leb_le in H1. apply N.leb_le in H2.
  split; apply Ascii.eqb_neq; intros ->; simpl in *; lia.
Qed.

Lemma rstrip_digits s : all_digits s = true → rstrip s = s.
Proof.
  induction s as [|c s IH]; simpl; [done |].
  intros [Hc Hs]%andb_true_iff. rewrite (IH Hs).
  destruct s; [by rewrite (digit_not_space c Hc) | done].
Qed.

Lemma strip_digits s : all_digits s = true → strip s = s.
Proof.
  intros H. unfold strip. rewrite (rstrip_digits s H).
  destruct s as [|c s]; simpl in *; [done |].
  apply andb_true_iff in H as [Hc _]. by rewrite (digit_not_space c Hc).
Qed.

(** Reading a run of digits, then more characters. *)
Lemma literal_value_app acc s t :
  all_digits s = true →
  literal_value acc (s ++ t)
  = match literal_value acc s with
    | Some a => literal_value a t
    | None => None
    end.
Proof.
  revert acc. induction s as [|c s IH]; intros acc; simpl; [done |].
  intros [Hc Hs]%andb_true_iff. rewrite Hc. by apply IH.
Qed.

Lemma literal_value_zeros n s :
  literal_value 0 (repeat_char n "0" ++ s) = literal_value 0 s.
Proof. induction n as [|n IH]; simpl; [done | apply IH]. Qed.

(** The digits of [n] are digits, at most [k] of them when [n < 10^k],
    and read back as [n]. *)
Lemma digits_S fuel n :
  digits (S fuel) n
  = if n <? 10 then String (digit_char n) EmptyString
    else digits fuel (n / 10) ++ String (digit_char (n mod 10)) EmptyString.
Proof. done. Qed.

Lemma digits_spec fuel : ∀ n,
  0 ≤ n < 10 ^ Z.of_nat (S fuel) →
  all_digits (digits (S fuel) n) = true
  ∧ (1 ≤ String.length (digits (S fuel) n))%nat
  ∧ literal_value 0 (digits (S fuel) n) = Some n
  ∧ ∀ k, n < 10 ^ Z.of_nat (S k) → (String.length (digits (S fuel) n) ≤ S k)%nat.
Proof.
  induction fuel as [|fuel IH]; intros n Hn;
    (rewrite (digits_S _ n); destruct (Z.ltb_spec n 10) as [Hlt | Hge];
     [ destruct (digit_char_spec n) as [Hd Hv]; [lia |];
       simpl; rewrite Hd, Hv; repeat split; first [lia | f_equal; lia | intros; lia] |]).
  { change (10 ^ Z.of_nat 1) with 10 in Hn. lia. }
  assert (0 ≤ n / 10 < 10 ^ Z.of_nat (S fuel)) as Hq.
  { split; [apply Z.div_pos; lia |].
    apply Z.div_lt_upper_bound; [lia |].
    rewrite (Nat2Z.inj_succ (S fuel)), Z.pow_succ_r in Hn; lia. }
  destruct (IH _ Hq) as (Ha & Hl & Hr & Hk).
  destruct (digit_char_spec (n mod 10)) as [Hd Hv];
    [apply Z.mod_pos_bound; lia |].
  repeat split.
  - rewrite all_digits_app, Ha. simpl. by rewrite Hd.
  - rewrite length_append. lia.
  - rewrite literal_value_app, Hr by done. simpl. rewrite Hd, Hv.
    f_equal. pose proof (Z.div_mod n 10). lia.
  - intros k Hnk. rewrite length_append.
    change (String.length (String (digit_char (n mod 10)) EmptyString)) with 1%nat.
    destruct k as [|k].
    { change (10 ^ Z.of_nat 1) with 10 in Hnk. lia. }
    assert (n / 10 < 10 ^ Z.of_nat (S k)) as Hq'.
    { apply Z.div_lt_upper_bound; [lia |].
      rewrite (Nat2Z.inj_succ (S k)), Z.pow_succ_r in Hnk; lia. }
    specialize (Hk k Hq'). lia.
Qed.

Lemma log2_fuel n : 0 ≤ n → n < 10 ^ Z.of_nat (S (Z.to_nat (Z.log2 n))).
Proof.
  intros Hn. destruct (Z.eq_dec n 0) as [-> | Hnz]; [done |].
  pose proof (Z.log2_nonneg n) as Hl.
  rewrite Nat2Z.inj_succ, Z2Nat.id by done.
  pose proof (Z.log2_spec n ltac:(lia)) as [_ Hup].
  eapply Z.lt_le_trans; [exact Hup |].
  apply Z.pow_le_mono_l. lia.
Qed.

(** [str(n)] of a non-negative [n] *)
Lemma str_int_spec n :
  0 ≤ n →
  all_digits (str_int n) = true
  ∧ (1 ≤ String.length (str_int n))%nat
  ∧ literal_value 0 (str_int n) = Some n
  ∧ ∀ k, n < 10 ^ Z.of_nat (S k) → (String.length (str_int n) ≤ S k)%nat.
Proof.
  intros Hn. unfold str_int.
  destruct (Z.ltb_spec n 0); [lia |].
  apply digits_spec. split; [lia | by apply log2_fuel].
Qed.

Lemma unsigned_literal_digits s :
  all_digits s = true → (1 ≤ String.length s)%nat →
  unsigned_literal s = literal_value 0 s.
Proof.
  destruct s as [|c s]; simpl; [lia |].
  intros [Hc _]%andb_true_iff _. by rewrite Hc.
Qed.

Lemma signed_body_digits s :
  all_digits s = true → signed_body s = (false, s).
Proof.
  intros Hs. unfold signed_body. rewrite (strip_digits s Hs).
  destruct s as [|c s]; simpl in *; [done |].
  apply andb_true_iff in Hs as [Hc _].
  destruct (digit_not_sign c Hc) as [-> ->]. done.
Qed.

Lemma scan_digits_digits s :
  all_digits s = true → scan_digits false s = Some (String.length s).
Proof.
  induction s as [|c s IH]; simpl; [done |].
  intros [Hc Hs]%andb_true_iff. by rewrite Hc, (IH Hs).
Qed.

(** A run of digits within the limit is not refused for its length. *)
Lemma over_limit_digits s :
  all_digits s = true → (String.length s ≤ max_str_digits)%nat →
  over_limit s = None.
Proof.
  intros Hs Hl. unfold over_limit. rewrite (signed_body_digits s Hs).
  destruct s as [|c s]; [done |].
  cbn [snd scan_digits]. simpl in Hs. apply andb_true_iff in Hs as [Hc Hs].
  rewrite Hc, (scan_digits_digits s Hs). cbn [fmap option_fmap option_map].
  destruct (Nat.ltb_spec max_str_digits (S (String.length s))) as [Hlt | _]; [| done].
  simpl in Hl. lia.
Qed.

Lemma parse_int_digits s :
  all_digits s = true → (1 ≤ String.length s ≤ max_str_digits)%nat →
  parse_int s = literal_value 0 s.
Proof.
  intros Hs [Hl Hmax]. unfold parse_int.
  rewrite (over_limit_digits s Hs Hmax), (signed_body_digits s Hs).
  rewrite <- (unsigned_literal_digits s Hs Hl).
  by destruct (unsigned_literal s).
Qed.

Lemma six_within_limit : (6 ≤ max_str_digits)%nat.
Proof. apply Nat.leb_le. reflexivity. Qed.

(** The padded code reads back as the integer it was made from. *)
Lemma parse_int_format n :
  0 ≤ n < 1000000 → parse_int (format_0gt6 n) = Some n.
Proof.
  intros Hn. destruct (str_int_spec n) as (Ha & Hl & Hr & Hk); [lia |].
  specialize (Hk 5%nat ltac:(simpl; lia)).
  pose proof six_within_limit as H6.
  unfold format_0gt6, rjust.
  rewrite parse_int_digits.
  - by rewrite literal_value_zeros.
  - by rewrite all_digits_app, all_digits_zeros.
  - rewrite length_append, length_repeat_char. lia.
Qed.

Lemma length_format n :
  0 ≤ n < 1000000 → String.length (format_0gt6 n) = 6%nat.
Proof.
  intros Hn. destruct (str_int_spec n) as (_ & Hl & _ & Hk); [lia |].
  specialize (Hk 5%nat ltac:(simpl; lia)).
  unfold format_0gt6, rjust. rewrite length_append, length_repeat_char. lia.
Qed.

Lemma length_zfill w s :
  String.length (zfill w s) = Nat.max w (String.length s).
Proof.
  unfold zfill. destruct (Nat.leb_spec w (String.length s)) as [Hle | Hgt]; [lia |].
  destruct s as [|c s]; simpl.
  - rewrite length_repeat_char. lia.
  - destruct (Ascii.eqb c "+" || Ascii.eqb c "-")%bool; simpl;
      rewrite length_append, length_repeat_char; simpl in *; lia.
Qed.

Lemma zfill_idempotent w s : zfill w (zfill w s) = zfill w s.
Proof.
  unfold zfill at 1. rewrite length_zfill.
  destruct (Nat.leb_spec w (Nat.max w (String.length s))); [done | lia].
Qed.

(** [s[:n]] is the prefix of [s] of [min n len(s)] characters. *)
Lemma slice_to_spec n s :
  String.prefix (slice_to n s) s = true
  ∧ String.length (slice_to n s) = Nat.min n (String.length s).
Proof.
  unfold slice_to. revert n. induction s as [|c s IH]; intros [|n]; simpl; try done.
  destruct (IH n) as [Hp Hl]. rewrite Hp, Hl.
  split; [by destruct (ascii_dec c c) | done].
Qed.

End PyFacts.

(** ** The order of cells *)

Lemma string_leb_trans s t u :
  String.leb s t = true → String.leb t u = true → String.leb s u = true.
Proof.
  unfold String.leb. intros Hst Htu.
  destruct (String.compare s t) eqn:Est; [| | done].
  { apply String.compare_eq_iff in Est as ->. done. }
  destruct (String.compare t u) eqn:Etu; [| | done].
  { apply String.compare_eq_iff in Etu as <-. by rewrite Est. }
  apply String_as_OT.cmp_lt in Est, Etu.
  pose proof (String_as_OT.lt_trans _ _ _ Est Etu) as Hlt.
  apply String_as_OT.cmp_lt in Hlt. unfold String_as_OT.cmp in Hlt. by rewrite Hlt.
Qed.

Lemma Qle_bool_total x y : Qle_bool x y = true ∨ Qle_bool y x = true.
Proof.
  rewrite !Qle_bool_iff.
  destruct (Qlt_le_dec x y) as [H | H]; [left; by apply Qlt_le_weak | by right].
Qed.

Lemma Qle_bool_trans x y z :
  Qle_bool x y = true → Qle_bool y z = true → Qle_bool x z = true.
Proof. rewrite !Qle_bool_iff. apply Qle_trans. Qed.

Lemma cell_leb_total a b : cell_leb a b = true ∨ cell_leb b a = true.
Proof.
  destruct a, b; simpl; auto using String.leb_total, Qle_bool_total.
Qed.

Lemma cell_leb_trans a b c :
  cell_leb a b = true → cell_leb b c = true → cell_leb a c = true.
Proof.
  destruct a, b, c; simpl; try done;
    eauto using string_leb_trans, Qle_bool_trans.
Qed.

Lemma cell_leb_antisym_str s b :
  cell_leb (CStr s) b = true → cell_leb b (CStr s) = true → b = CStr s.
Proof.
  destruct b; simpl; try done.
  intros H1 H2. f_equal. by apply String.leb_antisym.
Qed.

(** ** Stable sorting *)

Section SortFacts.
Context {A : Type} (leb : A → A → bool).
Hypothesis leb_total : ∀ a b, leb a b = true ∨ leb b a = true.
Hypothesis leb_trans : ∀ a b c, leb a b = true → leb b c = true → leb a c = true.

Lemma insert_sorted_perm x l : insert_sorted leb x l ≡ₚ x :: l.
Proof.
  induction l as [|y l IH]; simpl; [done |].
  destruct (leb x y); [done |]. rewrite IH. apply Permutation_swap.
Qed.

Lemma stable_sort_perm l : stable_sort leb l ≡ₚ l.
Proof.
  induction l as [|x l IH]; simpl; [done |].
  rewrite insert_sorted_perm. by rewrite IH.
Qed.

Lemma insert_sorted_refined (R : A → A → Prop) x l :
  StronglySorted (refined leb R) l → Forall (R x) l →
  StronglySorted (refined leb R) (insert_sorted leb x l).
Proof.
  induction l as [|y l IH]; simpl; intros Hs Hx.
  { repeat constructor. }
  apply StronglySorted_inv in Hs as [Hs Hy].
  apply Forall_cons in Hx as [Hxy Hx].
  destruct (leb x y) eqn:Exy.
  - constructor; [by constructor |].
    constructor; [done |].
    rewrite Forall_forall in Hy, Hx. apply Forall_forall. intros w Hw.
    split; [| intros _; by apply Hx].
    destruct (Hy w Hw) as [Hyw _]. by eapply leb_trans.
  - constructor; [by apply IH |].
    rewrite insert_sorted_perm. constructor; [| done].
    split; [| by rewrite Exy].
    by destruct (leb_total x y) as [H | H]; [rewrite H in Exy |].
Qed.

(** Sorting a list ordered on [R] orders it on [leb] and keeps the order
    on [R] where [leb] ties. *)
Lemma stable_sort_refined (R : A → A → Prop) l :
  StronglySorted R l → StronglySorted (refined leb R) (stable_sort leb l).
Proof.
  induction l as [|x l IH]; simpl; intros Hs; [constructor |].
  apply StronglySorted_inv in Hs as [Hs Hx].
  apply insert_sorted_refined; [by apply IH |].
  by rewrite stable_sort_perm.
Qed.

Lemma stable_sort_sorted l :
  StronglySorted (λ a b, leb a b = true) (stable_sort leb l).
Proof.
  assert (StronglySorted (λ _ _ : A, True) l) as Hl.
  { induction l; constructor; [done | by apply Forall_forall]. }
  apply stable_sort_refined in Hl.
  induction Hl as [|a l' Hs IH Ha]; constructor; [done |].
  eapply Forall_impl; [exact Ha |]. by intros b [? _].
Qed.

(** Stability: the elements of a class that [leb] does not separate keep
    their order. *)
Lemma insert_sorted_filter (P : A → Prop) `{∀ a, Decision (P a)} x l :
  (∀ a b, P a → P b → leb a b = true) →
  filter P (insert_sorted leb x l) = filter P (x :: l).
Proof.
  intros HP. induction l as [|y l IH]; simpl; [done |].
  destruct (leb x y) eqn:Exy; [done |].
  rewrite filter_cons, IH, !filter_cons.
  destruct (decide (P y)) as [Hy | Hy], (decide (P x)) as [Hx | Hx]; try done.
  by rewrite (HP x y Hx Hy) in Exy.
Qed.

Lemma stable_sort_filter (P : A → Prop) `{∀ a, Decision (P a)} l :
  (∀ a b, P a → P b → leb a b = true) →
  filter P (stable_sort leb l) = filter P l.
Proof.
  intros HP. induction l as [|x l IH]; simpl; [done |].
  rewrite insert_sorted_filter, !filter_cons by done. by rewrite IH.
Qed.

End SortFacts.

(** ** Computations *)

Lemma bind_events {A B} (m : M A) (k : A → M B) :
  (bind m k).1
  = (m.1 ++ match m.2 with Ok a => (k a).1 | Raise _ => [] end)%list.
Proof.
  destruct m as [out [a | e]]; simpl; [by destruct (k a) | by rewrite app_nil_r].
Qed.

Lemma bind_result {A B} (m : M A) (k : A → M B) :
  (bind m k).2 = match m.2 with Ok a => (k a).2 | Raise e => Raise e end.
Proof. destruct m as [out [a | e]]; simpl; [by destruct (k a) | done]. Qed.

Lemma bind_ok {A B} out (a : A) (k : A → M B) :
  bind (out, Ok a) k = ((out ++ (k a).1)%list, (k a).2).
Proof. simpl. by destruct (k a). Qed.

(** ** Frames *)

Lemma labels_distinct :
  NoDup [col_code; col_name; col_date; col_turnover; col_change].
Proof.
  apply (bool_decide_unpack
           (NoDup [col_code; col_name; col_date; col_turnover; col_change])).
  by vm_compute.
Qed.

Lemma elem_of_columns_setitem c k v df :
  c ∈ columns (setitem k v df) ↔ c = k ∨ c ∈ columns df.
Proof.
  unfold setitem. simpl. destruct (decide (k ∈ columns df)) as [Hk | Hk].
  - split; [by right | intros [-> | ?]; done].
  - rewrite elem_of_app, list_elem_of_singleton. tauto.
Qed.

Lemma at_insert r k v : at_ (<[k := v]> r) k = v.
Proof. unfold at_. by rewrite lookup_insert_eq. Qed.

Lemma at_insert_ne r k k' v : k ≠ k' → at_ (<[k := v]> r) k' = at_ r k'.
Proof. intros Hne. unfold at_. by rewrite lookup_insert_ne. Qed.

Lemma at_reindex cols r c : c ∈ cols → at_ (reindex cols r) c = at_ r c.
Proof.
  intros Hc. unfold at_, reindex. destruct (r !! c) as [v |] eqn:E.
  - erewrite (proj2 (map_lookup_filter_Some _ _ _ _)); [done | by split].
  - rewrite (proj2 (map_lookup_filter_None _ _ _)); [done | by left].
Qed.

Lemma reindex_id cols (r : gmap string cell) :
  (∀ c v, r !! c = Some v → c ∈ cols) → reindex cols r = r.
Proof. intros H. apply map_filter_id. intros c v Hcv. simpl. by eapply H. Qed.

Lemma reindex_dom cols (r : gmap string cell) c v :
  reindex cols r !! c = Some v → c ∈ cols.
Proof. unfold reindex. intros [_ H]%map_lookup_filter_Some. done. Qed.

(** [unique] adds a label at its first sight. *)
Lemma elem_of_unique l x : x ∈ unique l ↔ x ∈ l.
Proof.
  induction l as [|y l IH]; simpl; [done |].
  rewrite !elem_of_cons, list_elem_of_filter, IH.
  destruct (decide (x = y)); tauto.
Qed.

Lemma NoDup_unique l : NoDup (unique l).
Proof.
  induction l as [|y l IH]; simpl; constructor.
  - rewrite list_elem_of_filter. tauto.
  - by apply NoDup_filter.
Qed.

Lemma filter_all {A} (P : A → Prop) `{∀ x, Decision (P x)} (l : list A) :
  (∀ x, x ∈ l → P x) → filter P l = l.
Proof.
  induction l as [|x l IH]; intros Hl; [done |].
  rewrite filter_cons_True by (apply Hl; left).
  f_equal. apply IH. intros y Hy. apply Hl. by right.
Qed.

Lemma unique_app l1 l2 :
  unique (l1 ++ l2) = (unique l1 ++ filter (λ y, y ∉ l1) (unique l2))%list.
Proof.
  induction l1 as [|x l1 IH]; simpl.
  { symmetry. apply filter_all. intros y _. apply not_elem_of_nil. }
  f_equal. rewrite IH, filter_app. f_equal.
  rewrite list_filter_filter. apply list_filter_iff.
  intros y. rewrite not_elem_of_cons. tauto.
Qed.

Lemma unique_snoc l x :
  unique (l ++ [x]) = if decide (x ∈ l) then unique l else (unique l ++ [x])%list.
Proof.
  rewrite unique_app. simpl. rewrite filter_cons, filter_nil.
  destruct (decide (x ∈ l)), (decide (x ∉ l)); try done.
  by rewrite app_nil_r.
Qed.

(** ** The fetch worker *)

Lemma int_str s n : int (CStr s) = Ok n ↔ Py.parse_int s = Some n.
Proof.
  unfold int. destruct (Py.parse_int s) as [m |], (Py.over_limit s);
    split; intros H; by simplify_eq.
Qed.

Lemma int_str_raise s : Py.parse_int s = None → ∃ e, int (CStr s) = Raise e.
Proof.
  intros H. unfold int. rewrite H. destruct (Py.over_limit s); by eexists.
Qed.

(** What [int] raises is a [ValueError]. *)
Lemma int_raises v e :
  int v = Raise e → exn_class e = "ValueError" ∧ is_exception e = true.
Proof.
  unfold int. intros H.
  destruct v as [| n | x | s]; try (by simplify_eq).
  destruct (Py.parse_int s), (Py.over_limit s); by simplify_eq.
Qed.

Section Worker.
Variable ak : installed.
Variables (symbol name : cell) (start_date end_date : string).

Let provided := stock_zh_a_hist ak symbol start_date end_date EmptyString.

Lemma worker_raise e :
  provided = Raise e → is_exception e = true →
  get_stock_history ak symbol name start_date end_date
  = ([diagnostic (str_cell symbol) e], Ok DataFrame_new).
Proof.
  unfold provided, get_stock_history, lift. intros -> He. simpl. by rewrite He.
Qed.

Lemma worker_abort e :
  provided = Raise e → is_exception e = false →
  get_stock_history ak symbol name start_date end_date = ([], Raise e).
Proof.
  unfold provided, get_stock_history, lift. intros -> He. simpl. by rewrite He.
Qed.

Lemma worker_no_rows df :
  provided = Ok df → empty_ df = true →
  get_stock_history ak symbol name start_date end_date = ([], Ok DataFrame_new).
Proof.
  unfold provided, get_stock_history, lift. intros -> Hempty. simpl.
  by rewrite Hempty.
Qed.

Lemma worker_bad_code df e :
  provided = Ok df → empty_ df = false → int symbol = Raise e →
  get_stock_history ak symbol name start_date end_date
  = ([diagnostic (str_cell symbol) e], Ok DataFrame_new).
Proof.
  unfold provided, get_stock_history, lift. intros -> Hempty Hint.
  destruct (int_raises _ _ Hint) as [_ He]. simpl.
  rewrite Hempty, Hint. simpl. by rewrite He.
Qed.

Lemma worker_rows df n :
  provided = Ok df → empty_ df = false → int symbol = Ok n →
  get_stock_history ak symbol name start_date end_date
  = ([], Ok (post_process (pandas3 ak) n name df)).
Proof.
  unfold provided, get_stock_history, lift. intros -> Hempty Hint. simpl.
  by rewrite Hempty, Hint.
Qed.

(** The worker returns the empty frame, with at most a printed line, or
    the post-processed rows of the provider, silently, or it ends in the
    exception of the provider that is no [Exception]. *)
Lemma worker_cases :
  (∃ out, get_stock_history ak symbol name start_date end_date
          = (out, Ok DataFrame_new)
          ∧ ∀ ev, ev ∈ out → ∃ text, ev = Print text)
  ∨ (∃ df n, provided = Ok df ∧ empty_ df = false
             ∧ int symbol = Ok n
             ∧ get_stock_history ak symbol name start_date end_date
               = ([], Ok (post_process (pandas3 ak) n name df)))
  ∨ (∃ e, provided = Raise e ∧ is_exception e = false
          ∧ get_stock_history ak symbol name start_date end_date = ([], Raise e)).
Proof.
  destruct provided as [df | e] eqn:Hp.
  - destruct (empty_ df) eqn:Hempty.
    + left. exists []. split; [by eapply worker_no_rows |].
      intros ev Hev. by apply elem_of_nil in Hev.
    + destruct (int symbol) as [n | e] eqn:Hint.
      * right. left. exists df, n. repeat split; try done. by apply worker_rows.
      * left. eexists. split; [by eapply worker_bad_code |].
        intros ev ->%list_elem_of_singleton. by eexists.
  - destruct (is_exception e) eqn:He.
    + left. eexists. split; [by apply worker_raise |].
      intros ev ->%list_elem_of_singleton. by eexists.
    + right. right. exists e. repeat split; try done. by apply worker_abort.
Qed.

(** A provider that raises instances of [Exception] only: the worker
    returns. *)
Lemma worker_returns :
  (∀ e, provided = Raise e → is_exception e = true) →
  (∃ out, get_stock_history ak symbol name start_date end_date
          = (out, Ok DataFrame_new)
          ∧ ∀ ev, ev ∈ out → ∃ text, ev = Print text)
  ∨ (∃ df n, provided = Ok df ∧ empty_ df = false
             ∧ int symbol = Ok n
             ∧ get_stock_history ak symbol name start_date end_date
               = ([], Ok (post_process (pandas3 ak) n name df))).
Proof.
  intros Hex. destruct worker_cases as [H | [H | (e & Hp & He & _)]]; auto.
  rewrite (Hex e Hp) in He. done.
Qed.

End Worker.

Lemma labels_apart :
  col_turnover ≠ col_code ∧ col_turnover ≠ col_name
  ∧ col_change ≠ col_code ∧ col_change ≠ col_name
  ∧ col_turnover ≠ col_change ∧ col_code ≠ col_name ∧ col_date ≠ col_code
  ∧ col_date ≠ col_name.
Proof. repeat split; by vm_compute. Qed.

Lemma rows_setitem k v df :
  rows (setitem k v df) = map (λ r, <[k := v]> r) (rows df).
Proof. done. Qed.

Lemma columns_astype_step p3 col df :
  columns (if decide (col ∈ columns df) then astype_str_add p3 col "%" df else df)
  = columns df.
Proof. by destruct (decide (col ∈ columns df)). Qed.

Lemma rows_astype_step p3 col df :
  rows (if decide (col ∈ columns df) then astype_str_add p3 col "%" df else df)
  = map (percent p3 col (columns df)) (rows df).
Proof.
  unfold percent. destruct (decide (col ∈ columns df)); simpl; [done |].
  by rewrite map_id.
Qed.

Lemma percent_ext p3 col cols cols' r :
  (col ∈ cols ↔ col ∈ cols') → percent p3 col cols r = percent p3 col cols' r.
Proof.
  intros H. unfold percent.
  destruct (decide (col ∈ cols)), (decide (col ∈ cols')); tauto.
Qed.

Lemma post_process_columns_eq p3 n name df :
  columns (post_process p3 n name df)
  = columns (setitem col_name name
               (setitem col_code (CStr (Py.format_0gt6 n)) df)).
Proof. unfold post_process. cbn [foldl]. by rewrite !columns_astype_step. Qed.

Lemma post_process_columns p3 n name df c :
  c ∈ columns (post_process p3 n name df)
  ↔ c = col_code ∨ c = col_name ∨ c ∈ columns df.
Proof.
  rewrite post_process_columns_eq, !elem_of_columns_setitem. tauto.
Qed.

Lemma post_process_rows p3 n name df :
  rows (post_process p3 n name df)
  = map (processed_row p3 n name (columns df)) (rows df).
Proof.
  destruct labels_apart as (T1 & T2 & C1 & C2 & _).
  unfold post_process. cbn [foldl].
  rewrite rows_astype_step, columns_astype_step, rows_astype_step.
  rewrite !rows_setitem, !map_map. apply map_ext. intros r. unfold processed_row.
  rewrite (percent_ext p3 col_change _ (columns df)),
          (percent_ext p3 col_turnover _ (columns df)); [done | |];
    rewrite !elem_of_columns_setitem; intuition congruence.
Qed.

(** A processed row carries the padded code and the name; its percent
    fields are strings; the other fields are the provider's. *)
Lemma processed_row_code p3 n name cols r :
  at_ (processed_row p3 n name cols r) col_code = CStr (Py.format_0gt6 n).
Proof.
  destruct labels_apart as (T1 & T2 & C1 & C2 & _ & N & _).
  unfold processed_row, percent.
  repeat destruct (decide _); rewrite ?at_insert_ne by done; apply at_insert.
Qed.

Lemma processed_row_name p3 n name cols r :
  at_ (processed_row p3 n name cols r) col_name = name.
Proof.
  destruct labels_apart as (T1 & T2 & C1 & C2 & _).
  unfold processed_row, percent.
  repeat destruct (decide _); rewrite ?at_insert_ne by done; apply at_insert.
Qed.

Lemma processed_row_percent p3 n name cols r col :
  col ∈ [col_turnover; col_change] → col ∈ cols →
  at_ (processed_row p3 n name cols r) col = percent_cell p3 (at_ r col).
Proof.
  destruct labels_apart as (T1 & T2 & C1 & C2 & TC & _).
  intros Hcol Hin. unfold processed_row, percent.
  apply elem_of_cons in Hcol as [-> | Hcol];
    [| apply list_elem_of_singleton in Hcol as ->].
  - destruct (decide (col_turnover ∈ cols)); [| done].
    destruct (decide (col_change ∈ cols));
      rewrite ?(at_insert_ne _ col_change col_turnover) by done;
      rewrite at_insert; by rewrite !at_insert_ne by done.
  - destruct (decide (col_change ∈ cols)); [| done].
    rewrite at_insert.
    destruct (decide (col_turnover ∈ cols)); by rewrite !at_insert_ne by done.
Qed.

Lemma processed_row_dom p3 n name cols r c v :
  processed_row p3 n name cols r !! c = Some v →
  c = col_code ∨ c = col_name ∨ c ∈ cols ∨ r !! c = Some v.
Proof.
  unfold processed_row, percent. intros H.
  repeat match type of H with
         | context [decide ?P] => destruct (decide P)
         end;
    repeat match type of H with
           | <[?k := _]> _ !! c = Some _ =>
               destruct (decide (k = c)) as [<- | ?];
               [by auto | rewrite lookup_insert_ne in H by done]
           end; auto.
Qed.

Lemma worker_frame_not_empty p3 n name df :
  empty_ df = false → empty_ (post_process p3 n name df) = false.
Proof.
  unfold empty_. rewrite post_process_rows, post_process_columns_eq.
  destruct (columns df) as [|c cs] eqn:Hc; [done |].
  destruct (rows df) as [|r rs]; [done |]. intros _.
  destruct (columns (setitem _ _ _)) eqn:E; [| done].
  assert (col_name ∈ columns (setitem col_name name
            (setitem col_code (CStr (Py.format_0gt6 n)) df))) as Hin.
  { apply elem_of_columns_setitem. by left. }
  rewrite E in Hin. by apply elem_of_nil in Hin.
Qed.

(** ** The coordinator *)

Lemma non_empty_results_cons future done :
  non_empty_results (future :: done)
  = (match returned future with
     | Some df => if empty_ df then [] else [df]
     | None => []
     end ++ non_empty_results done)%list.
Proof.
  unfold non_empty_results. simpl. destruct (returned future) as [df |]; [| done].
  rewrite filter_cons. destruct (decide (empty_ df = false)) as [-> | Hne]; [done |].
  by destruct (empty_ df).
Qed.

(** The loop keeps the non-empty results, in completion order, and only
    shows what the workers printed, its own diagnostics and the progress;
    it ends in the first exception that is no [Exception], if any. *)
Lemma collect_spec done : ∀ all_data,
  ∃ out,
    collect done all_data
    = (out, match abort_of done with
            | Some e => Raise e
            | None => Ok (all_data ++ non_empty_results done)%list
            end)
    ∧ ∀ ev, ev ∈ out →
        ev = PbarUpdate ∨ (∃ text, ev = Print text)
        ∨ ∃ future, future ∈ done ∧ ev ∈ future.1.
Proof.
  induction done as [|future done IH]; intros all_data.
  { exists []. split; [by rewrite app_nil_r |]. intros ev Hev.
    by apply elem_of_nil in Hev. }
  rewrite non_empty_results_cons. unfold returned.
  destruct future as [out [df | e]]; cbn [collect abort_of snd].
  - destruct (IH (if negb (empty_ df) then (all_data ++ [df])%list else all_data))
      as (out' & Hc & Hev).
    exists (out ++ PbarUpdate :: out')%list. split.
    + rewrite bind_ok. cbn [emit bind fst snd]. rewrite Hc.
      cbn [fst snd]. f_equal. destruct (abort_of done); [done |]. f_equal.
      destruct (empty_ df); cbn [negb]; [done | by rewrite <- app_assoc].
    + intros ev [Hin | Hin]%elem_of_app.
      * right; right. exists (out, Ok df). split; [left | done].
      * apply elem_of_cons in Hin as [-> | Hin]; [by left |].
        destruct (Hev ev Hin) as [? | [? | (fut & ? & ?)]]; auto.
        right; right. exists fut. split; [by right | done].
  - destruct (is_exception e) eqn:He.
    + destruct (IH all_data) as (out' & Hc & Hev).
      exists (out ++ Print ("处理异常: " ++ Py.slice_to 50 (exn_str e) ++ "...")
                  :: PbarUpdate :: out')%list.
      split.
      * unfold print, emit, ret. cbn [bind]. rewrite Hc.
        rewrite app_nil_r, <- app_assoc. done.
      * intros ev [Hin | Hin]%elem_of_app.
        -- right; right. exists (out, Raise e). split; [left | done].
        -- apply elem_of_cons in Hin as [-> | Hin]; [right; left; by eexists |].
           apply elem_of_cons in Hin as [-> | Hin]; [by left |].
           destruct (Hev ev Hin) as [? | [? | (fut & ? & ?)]]; auto.
           right; right. exists fut. split; [by right | done].
    + exists (out ++ PbarUpdate :: mjoin (map fst done))%list. split; [done |].
      intros ev [Hin | Hin]%elem_of_app.
      * right; right. exists (out, Raise e). split; [left | done].
      * apply elem_of_cons in Hin as [-> | Hin]; [by left |].
        apply list_elem_of_join in Hin as (l & Hev & Hl).
        apply list_elem_of_fmap in Hl as (fut & -> & Hfut).
        right; right. exists fut. split; [by right | done].
Qed.

Lemma elem_of_as_completed {A} (order : list nat) (futures : list A) x :
  x ∈ as_completed order futures → x ∈ futures.
Proof.
  unfold as_completed. intros (i & _ & Hi)%list_elem_of_omap.
  by eapply list_elem_of_lookup_2.
Qed.

Lemma elem_of_submit_all ak stock_codes future :
  future ∈ submit_all ak stock_codes →
  ∃ symbol name,
    future = get_stock_history ak symbol name (start_date) (end_date).
Proof.
  unfold submit_all. intros (row & -> & _)%list_elem_of_fmap. eauto.
Qed.

(** The loop is not left early when no future is aborted, which is so
    when the provider raises instances of [Exception] only. *)
Lemma abort_of_none done :
  (∀ future, future ∈ done → aborted future = false) → abort_of done = None.
Proof.
  induction done as [|future done IH]; intros H; [done |].
  cbn [abort_of]. pose proof (H future ltac:(left)) as Hf. unfold aborted in Hf.
  assert (abort_of done = None) as ->.
  { apply IH. intros f Hin. apply H. by right. }
  destruct future.2 as [df | e]; [done |]. by destruct (is_exception e).
Qed.

Lemma abort_of_some done e :
  abort_of done = Some e →
  ∃ future, future ∈ done ∧ future.2 = Raise e ∧ is_exception e = false.
Proof.
  induction done as [|future done IH]; [done |]. cbn [abort_of]. intros H.
  destruct future.2 as [df | e'] eqn:Hf.
  - destruct (IH H) as (fut & Hin & Hfut). exists fut. split; [by right | done].
  - destruct (is_exception e') eqn:He.
    + destruct (IH H) as (fut & Hin & Hfut). exists fut. split; [by right | done].
    + injection H as <-. exists future. split; [left | done].
Qed.

Lemma submitted_not_aborted ak stock_codes future :
  only_exceptions ak → future ∈ submit_all ak stock_codes → aborted future = false.
Proof.
  intros Hex (symbol & name & ->)%elem_of_submit_all. unfold aborted.
  destruct (worker_returns ak symbol name start_date end_date)
    as [(o & -> & _) | (d & n & _ & _ & _ & ->)]; [| done..].
  intros e. apply Hex.
Qed.

Lemma only_exceptions_no_abort ak order stock_codes :
  only_exceptions ak →
  abort_of (as_completed order (submit_all ak stock_codes)) = None.
Proof.
  intros Hex. apply abort_of_none. intros future Hin%elem_of_as_completed.
  by eapply submitted_not_aborted.
Qed.

(** ** Merging and saving *)

Lemma merge_and_save_nothing ak :
  merge_and_save ak [] = ([Print "未获取到有效数据"], Ok tt).
Proof. done. Qed.

Lemma merge_and_save_writes ak all_data path df :
  ToCsv path df ∈ (merge_and_save ak all_data).1 →
  ∃ df0 df1,
    concat all_data = Ok df0
    ∧ sort_values [col_code; col_date] df0 = Ok df1
    ∧ getitem (pandas3 ak)
              (base_columns
               ++ filter (λ col, col ∉ base_columns) (columns df1))%list df1
      = Ok df
    ∧ path = output_file.
Proof.
  destruct all_data as [|d ds].
  { rewrite merge_and_save_nothing. by intros ?%list_elem_of_singleton. }
  unfold merge_and_save.
  destruct (concat (d :: ds)) as [df0 | e] eqn:Hconcat; [| done].
  unfold lift at 1. rewrite bind_ok.
  destruct (sort_values [col_code; col_date] df0) as [df1 | e] eqn:Hsort;
    [| by intros ?%elem_of_nil].
  unfold lift at 1. rewrite bind_ok.
  destruct (getitem _ _ df1) as [df2 | e] eqn:Hget;
    [| by intros ?%elem_of_nil].
  unfold lift at 1. rewrite bind_ok.
  intros Hin. cbn in Hin. exists df0, df1. split; [done |]. split; [done |].
  rewrite Hget.
  repeat (apply elem_of_cons in Hin as [Hin | Hin]; [try done |]).
  - by injection Hin as -> ->.
  - by apply elem_of_nil in Hin.
Qed.

(** ** The run of [main] *)

Lemma get_all_a_stock_codes_silent ak : (get_all_a_stock_codes ak).1 = [].
Proof.
  unfold get_all_a_stock_codes, lift.
  destruct (stock_info_a_code_name ak) as [info | e]; [| done].
  rewrite bind_ok. cbn [fst app].
  destruct (getcol "code" info); [| done].
  rewrite bind_ok. done.
Qed.

Lemma main_crash ak order e :
  (get_all_a_stock_codes ak).2 = Raise e →
  main ak order = ([Print "正在加载A股代码列表..."], Raise e).
Proof.
  intros He. unfold main, print, emit. rewrite bind_ok.
  destruct (get_all_a_stock_codes ak) as [out r] eqn:Hg.
  pose proof (get_all_a_stock_codes_silent ak) as Hs. rewrite Hg in Hs.
  simpl in He, Hs. subst out r. done.
Qed.

(** The lines of a submitted worker are printed lines. *)
Lemma submitted_prints ak stock_codes future ev :
  future ∈ submit_all ak stock_codes → ev ∈ future.1 → ∃ text, ev = Print text.
Proof.
  intros (symbol & name & ->)%elem_of_submit_all Hin.
  destruct (worker_cases ak symbol name start_date end_date)
    as [(o & Ho & Hp) | [(d & n & _ & _ & _ & Ho) | (e & _ & _ & Ho)]];
    rewrite Ho in Hin; simpl in Hin; [by apply Hp | by apply elem_of_nil in Hin ..].
Qed.

(** Once the ticker list is loaded, [main] shows the progress of the
    workers, then merges and saves what they returned, unless a worker
    ended in an exception that is no [Exception]. *)
Lemma main_run ak order stock_codes :
  (get_all_a_stock_codes ak).2 = Ok stock_codes →
  let futures := as_completed order (submit_all ak stock_codes) in
  let all_data := non_empty_results futures in
  ∃ shown,
    (∀ ev path df, ev ∈ shown → ev ≠ ToCsv path df)
    ∧ main ak order
      = match abort_of futures with
        | None => ((shown ++ (merge_and_save ak all_data).1)%list,
                   (merge_and_save ak all_data).2)
        | Some e => (shown, Raise e)
        end.
Proof.
  intros Hok futures all_data.
  destruct (get_all_a_stock_codes ak) as [out r] eqn:Hg.
  pose proof (get_all_a_stock_codes_silent ak) as Hs. rewrite Hg in Hs.
  simpl in Hok, Hs. subst out r.
  destruct (collect_spec futures []) as (out & Hc & Hev).
  exists (Print "正在加载A股代码列表..."
          :: Print ("共获取到 " ++ Py.str_int (Z.of_nat (len stock_codes))
                    ++ " 只A股（代码已补零）")
          :: PrintValues "示例代码：" (values_tolist (head 3 stock_codes))
          :: PbarOpen (length (submit_all ak stock_codes)) :: out).
  split.
  - intros ev path df Hin ->.
    do 4 (apply elem_of_cons in Hin as [? | Hin]; [done |]).
    destruct (Hev _ Hin) as [? | [[? ?] | (fut & Hf & Hin')]]; try done.
    apply elem_of_as_completed in Hf.
    by destruct (submitted_prints _ _ _ _ Hf Hin').
  - unfold main, print, emit. rewrite bind_ok, Hg, bind_ok, !bind_ok.
    fold futures. rewrite Hc.
    destruct (abort_of futures); [done |].
    rewrite bind_ok. cbn [fst snd app]. reflexivity.
Qed.

(** The same, for a provider that raises instances of [Exception] only. *)
Lemma main_run_returns ak order stock_codes :
  only_exceptions ak →
  (get_all_a_stock_codes ak).2 = Ok stock_codes →
  let all_data :=
    non_empty_results (as_completed order (submit_all ak stock_codes)) in
  ∃ shown,
    main ak order
    = ((shown ++ (merge_and_save ak all_data).1)%list,
       (merge_and_save ak all_data).2)
    ∧ ∀ ev path df, ev ∈ shown → ev ≠ ToCsv path df.
Proof.
  intros Hex Hok all_data.
  destruct (main_run ak order stock_codes Hok) as (shown & Hshown & Hmain).
  rewrite (only_exceptions_no_abort ak order stock_codes Hex) in Hmain.
  by exists shown.
Qed.

(** Every frame the coordinator keeps is the post-processed, non-empty
    answer of the provider for some ticker. *)
Lemma kept_frames ak order stock_codes f :
  f ∈ non_empty_results (as_completed order (submit_all ak stock_codes)) →
  ∃ symbol n name df,
    stock_zh_a_hist ak symbol start_date end_date EmptyString = Ok df
    ∧ int symbol = Ok n
    ∧ empty_ df = false ∧ f = post_process (pandas3 ak) n name df.
Proof.
  unfold non_empty_results.
  intros [Hne (fut & Hfut & Hret)%list_elem_of_omap]%list_elem_of_filter.
  apply elem_of_as_completed, elem_of_submit_all in Hfut as (symbol & name & ->).
  unfold returned in Hret.
  destruct (worker_cases ak symbol name start_date end_date)
    as [(o & Ho & _) | [(d & n & Hp & He & Hn & Ho) | (e & _ & _ & Ho)]];
    rewrite Ho in Hret; simpl in Hret; [| | done]; injection Hret as <-; [done |].
  by exists symbol, n, name, d.
Qed.

Lemma sort_values_ok by_ df df1 :
  sort_values by_ df = Ok df1 →
  df1 = mkDataFrame (columns df) (lexsort (reverse by_) (rows df))
  ∧ ∀ k, k ∈ by_ → k ∈ columns df.
Proof.
  unfold sort_values.
  destruct (List.find _ by_) as [k |] eqn:Hfind; [done |].
  intros [= <-]. split; [done |]. intros k Hk.
  apply list_elem_of_In in Hk.
  pose proof (List.find_none _ _ Hfind k Hk) as Hb. simpl in Hb.
  apply bool_decide_eq_false in Hb. by apply dec_stable.
Qed.

Lemma getitem_ok p3 cols df df' :
  getitem p3 cols df = Ok df' →
  df' = mkDataFrame cols (map (reindex cols) (rows df)).
Proof.
  unfold getitem. destruct (filter _ cols); [| done]. by intros [= <-].
Qed.

Lemma concat_ok frames df0 :
  concat frames = Ok df0 →
  frames ≠ []
  ∧ columns df0 = unique (mjoin (map columns frames))
  ∧ rows df0
    = mjoin (map (λ df, map (concat_row frames df) (rows df)) frames).
Proof. destruct frames; [done |]. by intros [= <-]. Qed.

(** A row in the concatenation: the labels of its frame, and its cells,
    ints turned into floats where the column is upcast. *)
Lemma concat_row_lookup frames f r c :
  concat_row frames f r !! c
  = (λ v, if upcasts frames c then upcast v else v) <$> reindex (columns f) r !! c.
Proof.
  unfold concat_row. rewrite map_lookup_imap.
  by destruct (reindex (columns f) r !! c).
Qed.

Lemma concat_row_dom frames f r c v :
  concat_row frames f r !! c = Some v → c ∈ columns f.
Proof.
  rewrite concat_row_lookup. intros H.
  destruct (reindex (columns f) r !! c) as [w |] eqn:E; [| done].
  by eapply reindex_dom.
Qed.

Lemma at_concat_row frames f r c :
  c ∈ columns f →
  at_ (concat_row frames f r) c
  = if upcasts frames c then upcast (at_ r c) else at_ r c.
Proof.
  intros Hc. pose proof (at_reindex (columns f) r c Hc) as Hat.
  unfold at_ in *. rewrite concat_row_lookup.
  destruct (reindex (columns f) r !! c) as [w |]; simpl in *; rewrite <- Hat;
    by destruct (upcasts frames c).
Qed.

Lemma at_concat_row_str frames f r c s :
  c ∈ columns f → at_ r c = CStr s → at_ (concat_row frames f r) c = CStr s.
Proof.
  intros Hc Hs. rewrite at_concat_row, Hs by done. by destruct (upcasts frames c).
Qed.

Lemma elem_of_concat_rows frames df0 r0 :
  concat frames = Ok df0 → r0 ∈ rows df0 →
  ∃ f r, f ∈ frames ∧ r ∈ rows f ∧ r0 = concat_row frames f r
         ∧ ∀ c, c ∈ columns f → c ∈ columns df0.
Proof.
  intros (_ & Hcols & Hrows)%concat_ok. rewrite Hrows.
  intros (l & Hr0 & Hl)%list_elem_of_join.
  apply list_elem_of_fmap in Hl as (f & -> & Hf).
  apply list_elem_of_fmap in Hr0 as (r & -> & Hr).
  exists f, r. repeat split; try done.
  intros c Hc. rewrite Hcols. apply elem_of_unique, list_elem_of_join.
  exists (columns f). split; [done |]. apply list_elem_of_fmap. eauto.
Qed.

Lemma lexsort_two k1 k2 l :
  lexsort [k1; k2] l = stable_sort (key_leb k2) (stable_sort (key_leb k1) l).
Proof. done. Qed.

Lemma lexsort_perm keys l : lexsort keys l ≡ₚ l.
Proof.
  unfold lexsort. revert l. induction keys as [|k keys IH]; intros l; simpl; [done |].
  rewrite IH. apply stable_sort_perm.
Qed.

(** A written table means that no worker left the loop early. *)
Lemma written_no_abort ak order stock_codes path df :
  (get_all_a_stock_codes ak).2 = Ok stock_codes →
  ToCsv path df ∈ (main ak order).1 →
  abort_of (as_completed order (submit_all ak stock_codes)) = None
  ∧ ToCsv path df
    ∈ (merge_and_save ak
         (non_empty_results (as_completed order (submit_all ak stock_codes)))).1.
Proof.
  intros Hg Hin.
  destruct (main_run ak order stock_codes Hg) as (shown & Hshown & Hmain).
  cbv zeta in Hmain. rewrite Hmain in Hin.
  destruct (abort_of _) as [e |].
  - by destruct (Hshown _ path df Hin).
  - split; [done |]. cbn [fst] in Hin.
    apply elem_of_app in Hin as [Hin | Hin]; [by destruct (Hshown _ path df Hin) | done].
Qed.

(** The table [main] writes: the rows of the concatenation, sorted; its
    labels, the base ones first. *)
Lemma final_table ak order path df :
  ToCsv path df ∈ (main ak order).1 →
  ∃ stock_codes df0,
    (get_all_a_stock_codes ak).2 = Ok stock_codes
    ∧ concat (non_empty_results (as_completed order (submit_all ak stock_codes)))
      = Ok df0
    ∧ columns df
      = (base_columns ++ filter (λ col, col ∉ base_columns) (columns df0))%list
    ∧ rows df = lexsort [col_date; col_code] (rows df0)
    ∧ path = output_file.
Proof.
  intros Hin.
  destruct (get_all_a_stock_codes ak).2 as [stock_codes | e] eqn:Hg.
  2:{ rewrite (main_crash _ _ _ Hg) in Hin.
      by apply list_elem_of_singleton in Hin. }
  destruct (written_no_abort _ _ _ _ _ Hg Hin) as [_ Hw].
  apply merge_and_save_writes in Hw as (df0 & df1 & Hc & Hs & Hget & ->).
  exists stock_codes, df0. split; [done |]. split; [done |].
  apply sort_values_ok in Hs as [-> Hkeys].
  apply getitem_ok in Hget as ->. cbn [columns rows].
  split; [done |]. split; [| done].
  change (reverse [col_code; col_date]) with [col_date; col_code].
  rewrite <- (map_id (lexsort _ _)) at 2. apply map_ext_in.
  intros r0 Hr0%list_elem_of_In. rewrite lexsort_perm in Hr0.
  apply reindex_id. intros c v Hcv.
  destruct (elem_of_concat_rows _ _ _ Hc Hr0) as (f & r & Hf & Hr & -> & Hsub).
  apply concat_row_dom, Hsub in Hcv.
  destruct (decide (c ∈ base_columns)); [by apply elem_of_app; left |].
  apply elem_of_app; right. by apply list_elem_of_filter.
Qed.

(** Every row of the concatenation carries a padded code. *)
Lemma concat_row_code ak order stock_codes df0 r0 :
  concat (non_empty_results (as_completed order (submit_all ak stock_codes)))
  = Ok df0 →
  r0 ∈ rows df0 → ∃ n, at_ r0 col_code = CStr (Py.format_0gt6 n).
Proof.
  intros Hc Hr0.
  destruct (elem_of_concat_rows _ _ _ Hc Hr0) as (f & r & Hf & Hr & -> & _).
  apply kept_frames in Hf as (symbol & n & name & df & _ & _ & _ & ->).
  rewrite post_process_rows in Hr.
  apply list_elem_of_fmap in Hr as (r' & -> & _).
  exists n. apply at_concat_row_str; [| apply processed_row_code].
  apply post_process_columns. by left.
Qed.

Lemma sorted_adjacent {A} (R : A → A → Prop) (l : list A) i a b :
  StronglySorted R l → l !! i = Some a → l !! S i = Some b → R a b.
Proof.
  intros Hs Ha Hb. rewrite <- (take_drop_middle l i a Ha) in Hs.
  apply StronglySorted_app_1_r, StronglySorted_inv in Hs as [_ Hall].
  rewrite Forall_forall in Hall. apply Hall.
  apply (list_elem_of_lookup_2 _ 0%nat). rewrite lookup_drop. by rewrite Nat.add_0_r.
Qed.

Lemma key_leb_total col a b : key_leb col a b = true ∨ key_leb col b a = true.
Proof. apply cell_leb_total. Qed.

Lemma key_leb_trans col a b c :
  key_leb col a b = true → key_leb col b c = true → key_leb col a c = true.
Proof. apply cell_leb_trans. Qed.

(** ** Percent fields *)

Lemma percent_cell_value p3 v :
  v ≠ CNaN → percent_cell p3 v = CStr (str_cell v ++ "%").
Proof. by destruct v. Qed.

Lemma percent_cell_missing p3 :
  percent_cell p3 CNaN = if p3 then CNaN else CStr "nan%".
Proof. by destruct p3. Qed.

(** The rows the worker returns, one for each row of the provider. *)
Lemma worker_row ak symbol name start_date end_date df n i r :
  stock_zh_a_hist ak symbol start_date end_date EmptyString = Ok df →
  empty_ df = false → int symbol = Ok n →
  rows df !! i = Some r →
  ∃ out,
    get_stock_history ak symbol name start_date end_date = ([], Ok out)
    ∧ rows out !! i = Some (processed_row (pandas3 ak) n name (columns df) r).
Proof.
  intros Hdf Hempty Hint Hr. exists (post_process (pandas3 ak) n name df).
  split; [by apply worker_rows |].
  rewrite post_process_rows. change map with (@fmap list _).
  by rewrite list_lookup_fmap, Hr.
Qed.

Lemma processed_row_other p3 n name cols r c :
  c ≠ col_code → c ≠ col_name →
  (c = col_turnover ∨ c = col_change → c ∉ cols) →
  processed_row p3 n name cols r !! c = r !! c.
Proof.
  intros Hcode Hname Hpercent. unfold processed_row, percent.
  destruct (decide (col_change ∈ cols)) as [Hc | Hc];
    [rewrite lookup_insert_ne by (intros <-; apply Hpercent; auto) |];
    (destruct (decide (col_turnover ∈ cols)) as [Ht | Ht];
     [rewrite lookup_insert_ne by (intros <-; apply Hpercent; auto) |]);
    by rewrite !lookup_insert_ne by done.
Qed.

(** ** Completion orders *)

Lemma as_completed_all {A} (futures : list A) :
  as_completed (seq 0 (length futures)) futures = futures.
Proof.
  unfold as_completed.
  assert (∀ (l pre : list A),
            omap (λ i, (pre ++ l)%list !! i) (seq (length pre) (length l)) = l) as H.
  { induction l as [|x l IH]; intros pre; [done |].
    cbn [length seq]. change (omap ?f (?j :: ?js)) with
      (match f j with Some y => y :: omap f js | None => omap f js end).
    cbv beta. rewrite list_lookup_middle by done.
    f_equal. specialize (IH (pre ++ [x])%list).
    rewrite length_app, <- app_assoc in IH. cbn [length app] in IH.
    by rewrite Nat.add_1_r in IH. }
  apply (H futures []).
Qed.

Lemma as_completed_perm {A} (order : list nat) (futures : list A) :
  order ≡ₚ seq 0 (length futures) → as_completed order futures ≡ₚ futures.
Proof.
  intros Hp. rewrite <- (as_completed_all futures) at 2.
  unfold as_completed. by rewrite Hp.
Qed.

Lemma non_empty_results_perm {done done' : list (M DataFrame)} :
  done ≡ₚ done' → non_empty_results done ≡ₚ non_empty_results done'.
Proof. intros Hp. unfold non_empty_results. by rewrite Hp. Qed.

Lemma collected_perm ak order1 order2 stock_codes :
  order1 ≡ₚ seq 0 (len stock_codes) → order2 ≡ₚ seq 0 (len stock_codes) →
  non_empty_results (as_completed order1 (submit_all ak stock_codes))
  ≡ₚ non_empty_results (as_completed order2 (submit_all ak stock_codes)).
Proof.
  intros H1 H2.
  assert (len stock_codes = length (submit_all ak stock_codes)) as Hlen.
  { unfold submit_all, len. by rewrite length_map. }
  rewrite Hlen in H1, H2. apply non_empty_results_perm.
  by rewrite (as_completed_perm _ _ H1), (as_completed_perm _ _ H2).
Qed.

(** ** Selecting columns *)

Lemma filter_none {A} (P : A → Prop) `{∀ x, Decision (P x)} (l : list A) :
  (∀ x, x ∈ l → ¬ P x) → filter P l = [].
Proof.
  intros Hl. destruct (filter P l) as [|x l'] eqn:E; [done |].
  assert (x ∈ filter P l) as [Hx Hin]%list_elem_of_filter by (rewrite E; left).
  by destruct (Hl x Hin).
Qed.

Lemma getitem_present p3 cols df :
  (∀ k, k ∈ cols → k ∈ columns df) →
  getitem p3 cols df = Ok (mkDataFrame cols (map (reindex cols) (rows df))).
Proof.
  intros Hall. unfold getitem. rewrite filter_none; [done |].
  intros k Hk Hn. by apply Hn, Hall.
Qed.

Lemma getitem_name_missing p3 df :
  "code" ∈ columns df → "name" ∉ columns df →
  getitem p3 ["code"; "name"] df = Raise name_not_in_index.
Proof.
  intros Hcode Hname. unfold getitem.
  rewrite filter_cons_False by (intros Hn; by apply Hn).
  rewrite filter_cons_True by done. rewrite filter_nil.
  destruct (decide (["name"] = ["code"; "name"])) as [[=] | _]. reflexivity.
Qed.

(** The four ways [get_all_a_stock_codes] ends. *)
Lemma get_all_a_stock_codes_cases ak :
  (∃ e, stock_info_a_code_name ak = Raise e
        ∧ get_all_a_stock_codes ak = ([], Raise e))
  ∨ (∃ info,
       stock_info_a_code_name ak = Ok info ∧ ("code" ∉ columns info)
       ∧ get_all_a_stock_codes ak = ([], Raise (KeyError "code")))
  ∨ (∃ info,
       stock_info_a_code_name ak = Ok info
       ∧ "code" ∈ columns info ∧ ("name" ∉ columns info)
       ∧ get_all_a_stock_codes ak = ([], Raise name_not_in_index))
  ∨ (∃ info,
       stock_info_a_code_name ak = Ok info
       ∧ "code" ∈ columns info ∧ "name" ∈ columns info
       ∧ get_all_a_stock_codes ak
         = ([], Ok (mkDataFrame ["code"; "name"]
                      (map (reindex ["code"; "name"])
                           (rows (astype_str_zfill (pandas3 ak) "code" 6 info)))))).
Proof.
  unfold get_all_a_stock_codes, lift.
  destruct (stock_info_a_code_name ak) as [info | e]; [| left; by exists e].
  right. rewrite bind_ok. cbn [fst app]. unfold getcol.
  destruct (decide ("code" ∈ columns info)) as [Hcode | Hcode].
  2:{ left. by exists info. }
  right. rewrite bind_ok. cbn [fst snd app].
  destruct (decide ("name" ∈ columns info)) as [Hname | Hname].
  - right. exists info. repeat split; try done.
    rewrite getitem_present; [done |].
    intros k [-> | [-> | []%elem_of_nil]%elem_of_cons]%elem_of_cons; done.
  - left. exists info. repeat split; try done.
    by rewrite getitem_name_missing.
Qed.

(** ** The merge, step by step *)

Lemma concat_has_stamps ak order stock_codes df0 :
  concat (non_empty_results (as_completed order (submit_all ak stock_codes)))
  = Ok df0 →
  col_code ∈ columns df0 ∧ col_name ∈ columns df0.
Proof.
  intros Hc. pose proof Hc as (Hne & Hcols & _)%concat_ok.
  destruct (non_empty_results _) as [|f fs] eqn:E; [done |].
  assert (f ∈ non_empty_results (as_completed order (submit_all ak stock_codes)))
    as Hf by (rewrite E; left).
  apply kept_frames in Hf as (symbol & n & name & df & _ & _ & _ & ->).
  rewrite Hcols.
  split; apply elem_of_unique, list_elem_of_join;
    exists (columns (post_process (pandas3 ak) n name df));
    (split; [apply post_process_columns; auto | left]).
Qed.

Lemma elem_of_concat_columns frames df0 c :
  concat frames = Ok df0 →
  c ∈ columns df0 ↔ ∃ f, f ∈ frames ∧ c ∈ columns f.
Proof.
  intros (_ & -> & _)%concat_ok.
  rewrite elem_of_unique, list_elem_of_join. split.
  - intros (l & Hc & (f & -> & Hf)%list_elem_of_fmap). eauto.
  - intros (f & Hf & Hc). exists (columns f). split; [done |].
    apply list_elem_of_fmap. eauto.
Qed.

Lemma sort_values_code_date df0 :
  col_code ∈ columns df0 →
  sort_values [col_code; col_date] df0
  = if decide (col_date ∈ columns df0)
    then Ok (mkDataFrame (columns df0)
               (lexsort [col_date; col_code] (rows df0)))
    else Raise (KeyError col_date).
Proof.
  intros Hcode. unfold sort_values. cbn [List.find].
  destruct (bool_decide_reflect (col_code ∉ columns df0)); [tauto |].
  destruct (bool_decide_reflect (col_date ∉ columns df0));
    destruct (decide (col_date ∈ columns df0)); try tauto; done.
Qed.

Lemma getitem_base_columns p3 df1 :
  col_code ∈ columns df1 → col_name ∈ columns df1 → col_date ∈ columns df1 →
  getitem p3 (base_columns ++ filter (λ col, col ∉ base_columns) (columns df1))%list
          df1
  = Ok (mkDataFrame
          (base_columns ++ filter (λ col, col ∉ base_columns) (columns df1))%list
          (map (reindex (base_columns
                         ++ filter (λ col, col ∉ base_columns) (columns df1))%list)
               (rows df1))).
Proof.
  intros Hcode Hname Hdate. apply getitem_present.
  intros k [Hk | [_ Hk]%list_elem_of_filter]%elem_of_app; [| done].
  repeat (apply elem_of_cons in Hk as [-> | Hk]; [done |]).
  by apply elem_of_nil in Hk.
Qed.

(** With the stamps in place, the merge raises for a missing date label,
    and otherwise writes one file and shows the summary. *)
Lemma merge_and_save_run ak all_data df0 :
  concat all_data = Ok df0 →
  col_code ∈ columns df0 → col_name ∈ columns df0 →
  (col_date ∉ columns df0 →
   merge_and_save ak all_data = ([], Raise (KeyError col_date)))
  ∧ (col_date ∈ columns df0 →
     ∃ df shown,
       merge_and_save ak all_data = (ToCsv output_file df :: shown, Ok tt)
       ∧ List.filter is_to_csv shown = []).
Proof.
  intros Hc Hcode Hname.
  destruct all_data as [|d ds]; [done |].
  split; intros Hdate;
    unfold merge_and_save, lift; rewrite Hc; cbn [bind];
    rewrite (sort_values_code_date df0 Hcode);
    (destruct (decide (col_date ∈ columns df0)); [| try done]); try done.
  cbn [bind]. rewrite getitem_base_columns by done.
  eexists _, _. split; [reflexivity | reflexivity].
Qed.

(** What the merge shows: the no-data line, nothing (it raised), or the
    file followed by the summary. *)
Lemma merge_and_save_events ak all_data :
  (merge_and_save ak all_data).1 = [Print "未获取到有效数据"]
  ∨ (merge_and_save ak all_data).1 = []
  ∨ ∃ df saved total preview_line preview,
      (merge_and_save ak all_data).1
      = [ToCsv output_file df; Print (newline ++ saved);
         Print ("总记录数: " ++ total);
         Print (newline ++ preview_line); PrintFrame preview].
Proof.
  destruct all_data as [|d ds]; [by left |]. right.
  unfold merge_and_save, lift. cbn [bind concat].
  destruct (sort_values _ _) as [df1 | e]; [| by left].
  cbn [bind]. destruct (getitem _ _ df1) as [df2 | e]; [| by left].
  right. cbn. by eexists _, _, _, _, _.
Qed.

(** The concatenation does not depend on the order of the frames, up to
    the order of its rows and labels. *)
Lemma forallb_perm {A} (f : A → bool) (l1 l2 : list A) :
  l1 ≡ₚ l2 → forallb f l1 = forallb f l2.
Proof.
  induction 1 as [| x l1 l2 _ IH | x y l | l1 l2 l3 _ IH1 _ IH2]; simpl.
  - done.
  - by rewrite IH.
  - by rewrite !andb_assoc, (andb_comm (f y)).
  - by rewrite IH1.
Qed.

Lemma upcasts_perm frames1 frames2 col :
  frames1 ≡ₚ frames2 → upcasts frames1 col = upcasts frames2 col.
Proof.
  intros Hp. unfold upcasts.
  by rewrite (forallb_perm _ _ _ Hp), (forallb_perm _ frames1 frames2 Hp).
Qed.

Lemma concat_row_perm frames1 frames2 f r :
  frames1 ≡ₚ frames2 → concat_row frames1 f r = concat_row frames2 f r.
Proof.
  intros Hp. apply map_eq. intros c.
  by rewrite !concat_row_lookup, (upcasts_perm _ _ c Hp).
Qed.

Lemma concat_columns_perm frames1 frames2 df1 df2 :
  frames1 ≡ₚ frames2 → concat frames1 = Ok df1 → concat frames2 = Ok df2 →
  columns df1 ≡ₚ columns df2 ∧ rows df1 ≡ₚ rows df2.
Proof.
  intros Hp (_ & Hc1 & Hr1)%concat_ok (_ & Hc2 & Hr2)%concat_ok. split.
  - rewrite Hc1, Hc2. apply NoDup_Permutation; [apply NoDup_unique .. |].
    intros c. rewrite !elem_of_unique. by rewrite Hp.
  - rewrite Hr1, Hr2.
    rewrite (map_ext (λ df, map (concat_row frames1 df) (rows df))
                     (λ df, map (concat_row frames2 df) (rows df))).
    + change map with (@fmap list _). by rewrite Hp.
    + intros df. apply map_ext. intros r. by apply concat_row_perm.
Qed.

(** ** The trace of [main] *)

Lemma submitted_raise ak stock_codes future e :
  future ∈ submit_all ak stock_codes → future.2 = Raise e →
  is_exception e = false.
Proof.
  intros (symbol & name & ->)%elem_of_submit_all.
  destruct (worker_cases ak symbol name start_date end_date)
    as [(o & -> & _) | [(d & n & _ & _ & _ & ->) | (e' & _ & He & ->)]];
    cbn [snd]; intros [=]. by subst.
Qed.

Lemma attended_all done :
  (∀ future, future ∈ done → aborted future = false) → attended done = done.
Proof.
  induction done as [|future done IH]; intros H; [done |].
  cbn [attended]. rewrite (H future) by left. f_equal.
  apply IH. intros f Hf. apply H. by right.
Qed.

Lemma loop_shown_all done :
  (∀ future, future ∈ done → aborted future = false) →
  loop_shown done = mjoin (shown_for <$> done).
Proof.
  intros H. unfold loop_shown. rewrite (attended_all done H).
  by rewrite drop_all, app_nil_r.
Qed.

Lemma collect_trace done : ∀ all_data,
  (∀ future e, future ∈ done → future.2 = Raise e → is_exception e = false) →
  collect done all_data
  = (loop_shown done,
     match abort_of done with
     | Some e => Raise e
     | None => Ok (all_data ++ non_empty_results done)%list
     end).
Proof.
  induction done as [|future done IH]; intros all_data Hraise.
  { cbn. by rewrite app_nil_r. }
  assert (∀ f e, f ∈ done → f.2 = Raise e → is_exception e = false) as Hrest.
  { intros f e Hf. apply Hraise. by right. }
  rewrite non_empty_results_cons. unfold returned, loop_shown.
  destruct future as [out [df | e]]; cbn [collect abort_of attended aborted snd].
  - rewrite bind_ok. cbn [emit bind fst snd].
    rewrite (IH _ Hrest). unfold loop_shown.
    cbn [fst snd fmap list_fmap mjoin list_join length drop].
    unfold shown_for at 2. cbn [fst].
    f_equal; [by rewrite <- !app_assoc |].
    destruct (abort_of done); [done |]. f_equal.
    destruct (empty_ df); cbn [negb]; [done | by rewrite <- app_assoc].
  - rewrite (Hraise (out, Raise e) e) by (done || left). cbn [negb].
    cbn [fst snd fmap list_fmap mjoin list_join length drop].
    unfold shown_for. cbn [fst bind]. rewrite app_nil_r, <- app_assoc. done.
Qed.

(** Once the ticker list is loaded, [main] shows its two opening lines,
    the sample codes and the progress bar, then the workers in completion
    order, then what the merge shows, unless a worker ended the loop. *)
Lemma main_trace ak order stock_codes :
  (get_all_a_stock_codes ak).2 = Ok stock_codes →
  let futures := as_completed order (submit_all ak stock_codes) in
  main ak order
  = (([Print "正在加载A股代码列表...";
       Print ("共获取到 " ++ Py.str_int (Z.of_nat (len stock_codes))
              ++ " 只A股（代码已补零）");
       PrintValues "示例代码：" (values_tolist (head 3 stock_codes));
       PbarOpen (len stock_codes)]
      ++ loop_shown futures
      ++ match abort_of futures with
         | None => (merge_and_save ak (non_empty_results futures)).1
         | Some _ => []
         end)%list,
     match abort_of futures with
     | None => (merge_and_save ak (non_empty_results futures)).2
     | Some e => Raise e
     end).
Proof.
  intros Hok futures.
  destruct (get_all_a_stock_codes ak) as [out r] eqn:Hg.
  pose proof (get_all_a_stock_codes_silent ak) as Hs. rewrite Hg in Hs.
  simpl in Hok, Hs. subst out r.
  unfold main, print, emit. rewrite bind_ok, Hg, bind_ok, !bind_ok.
  fold futures. rewrite (collect_trace futures []).
  2:{ intros f e Hf%elem_of_as_completed Hr. by eapply submitted_raise. }
  unfold submit_all at 1. rewrite length_map. fold (len stock_codes).
  destruct (abort_of futures).
  - cbn [bind fst snd app]. by rewrite app_nil_r.
  - rewrite bind_ok. cbn [fst snd app]. done.
Qed.

Lemma filter_prints (p : event → bool) (l : list event) :
  (∀ text, p (Print text) = false) →
  (∀ ev, ev ∈ l → ∃ text, ev = Print text) → List.filter p l = [].
Proof.
  intros Hprint. induction l as [|ev l IH]; intros Hall; [done |].
  cbn. destruct (Hall ev ltac:(left)) as [text ->]. rewrite Hprint.
  apply IH. intros ev' Hev'. apply Hall. by right.
Qed.

Lemma filter_shown (p : event → bool) (b : bool) (fs : list (M DataFrame)) :
  (∀ text, p (Print text) = false) → p PbarUpdate = b →
  (∀ f ev, f ∈ fs → ev ∈ f.1 → ∃ text, ev = Print text) →
  List.filter p (mjoin (shown_for <$> fs))
  = if b then replicate (length fs) PbarUpdate else [].
Proof.
  intros Hprint Hupdate. induction fs as [|f fs IH]; intros Hall.
  { by destruct b. }
  change (mjoin (shown_for <$> f :: fs))
    with (shown_for f ++ mjoin (shown_for <$> fs))%list.
  rewrite List.filter_app, IH by (intros g ev Hg; apply Hall; by right).
  unfold shown_for. rewrite List.filter_app. cbn [List.filter]. rewrite Hupdate.
  rewrite (filter_prints p f.1 Hprint) by (intros ev; apply Hall; left).
  by destruct b.
Qed.

Lemma filter_lines (p : event → bool) (fs : list (M DataFrame)) :
  (∀ text, p (Print text) = false) →
  (∀ f ev, f ∈ fs → ev ∈ f.1 → ∃ text, ev = Print text) →
  List.filter p (mjoin (fst <$> fs)) = [].
Proof.
  intros Hprint Hall. apply filter_prints; [done |].
  intros ev (l & Hev & (f & -> & Hf)%list_elem_of_fmap)%list_elem_of_join.
  by eapply Hall.
Qed.

Lemma elem_of_attended done future : future ∈ attended done → future ∈ done.
Proof.
  induction done as [|f done IH]; [done |]. cbn [attended].
  intros [-> | Hin]%elem_of_cons; [left |]. right.
  destruct (aborted f); [by apply elem_of_nil in Hin | by apply IH].
Qed.

Lemma elem_of_drop {A} (l : list A) n x : x ∈ drop n l → x ∈ l.
Proof.
  intros Hin. rewrite <- (take_drop n l). apply elem_of_app. by right.
Qed.

Lemma filter_loop_shown (p : event → bool) (b : bool) ak stock_codes order :
  (∀ text, p (Print text) = false) → p PbarUpdate = b →
  let futures := as_completed order (submit_all ak stock_codes) in
  List.filter p (loop_shown futures)
  = if b then replicate (length (attended futures)) PbarUpdate else [].
Proof.
  intros Hprint Hupdate futures. unfold loop_shown.
  assert (∀ f ev, f ∈ futures → ev ∈ f.1 → ∃ text, ev = Print text) as Hall.
  { intros f ev Hf%elem_of_as_completed Hev. by eapply submitted_prints. }
  rewrite List.filter_app, (filter_shown p b), filter_lines; try done.
  - by rewrite app_nil_r.
  - intros f ev Hf%elem_of_drop. by apply Hall.
  - intros f ev Hf%elem_of_attended. by apply Hall.
Qed.

(** The sample provider raises instances of [Exception] only. *)
Lemma sample_ak_only_exceptions : only_exceptions sample_ak.
Proof.
  intros symbol s e a x. cbn [stock_zh_a_hist sample_ak]. unfold sample_hist.
  repeat destruct (String.eqb _ _); try discriminate. by intros [= <-].
Qed.

Lemma dateless_ak_only_exceptions : only_exceptions dateless_ak.
Proof. intros symbol s e a x. discriminate. Qed.

(** ** The claims *)

(** C1. In the table [main] writes, of two adjacent rows either the first
    has the smaller stock code, or they have the same stock code and the
    date of the first is not after the date of the second (missing dates
    last). *)
Theorem final_table_ordered ak order path df i a b :
  ToCsv path df ∈ (main ak order).1 →
  rows df !! i = Some a → rows df !! S i = Some b →
  cell_ltb (at_ a col_code) (at_ b col_code) = true
  ∨ (at_ a col_code = at_ b col_code
     ∧ cell_leb (at_ a col_date) (at_ b col_date) = true).
Proof.
  intros (stock_codes & df0 & _ & Hc & _ & Hrows & _)%final_table Ha Hb.
  rewrite Hrows, lexsort_two in Ha, Hb.
  pose proof (stable_sort_refined (key_leb col_code)
                (key_leb_total col_code) (key_leb_trans col_code)
                (λ x y, key_leb col_date x y = true) _
                (stable_sort_sorted (key_leb col_date)
                   (key_leb_total col_date) (key_leb_trans col_date) (rows df0)))
    as Hsorted.
  destruct (sorted_adjacent _ _ _ _ _ Hsorted Ha Hb) as [Hab Hdate].
  unfold cell_ltb. fold (key_leb col_code b a).
  destruct (key_leb col_code b a) eqn:Hba; [right | by left].
  split; [| by apply Hdate].
  assert (a ∈ rows df0) as Hin.
  { rewrite <- (stable_sort_perm (key_leb col_date)),
            <- (stable_sort_perm (key_leb col_code)).
    by eapply list_elem_of_lookup_2. }
  destruct (concat_row_code _ _ _ _ _ Hc Hin) as [n Hn].
  unfold key_leb in Hab, Hba. rewrite Hn in Hab, Hba |- *.
  symmetry. by apply cell_leb_antisym_str.
Qed.

Lemma final_table_ordered_witness :
  cell_ltb (at_ sample_row_1 col_code) (at_ sample_row_2 col_code) = true
  ∨ (at_ sample_row_1 col_code = at_ sample_row_2 col_code
     ∧ cell_leb (at_ sample_row_1 col_date) (at_ sample_row_2 col_date) = true).
Proof.
  apply (final_table_ordered sample_ak sample_order output_file sample_final 1%nat).
  - apply (list_elem_of_lookup_2 _ 10%nat). vm_compute. reflexivity.
  - vm_compute. reflexivity.
  - vm_compute. reflexivity.
Defined.

(** C2. The sort of the merge step is stable: the rows that the sort key
    (stock code, date) does not tell apart are in the written table in the
    order they have in the concatenation of the collected tables. *)
Theorem merge_sort_stable ak order path df :
  ToCsv path df ∈ (main ak order).1 →
  ∃ stock_codes df0,
    (get_all_a_stock_codes ak).2 = Ok stock_codes
    ∧ concat (non_empty_results (as_completed order (submit_all ak stock_codes)))
      = Ok df0
    ∧ ∀ k, filter (same_key k) (rows df) = filter (same_key k) (rows df0).
Proof.
  intros (stock_codes & df0 & Hg & Hc & _ & Hrows & _)%final_table.
  exists stock_codes, df0. split; [done |]. split; [done |]. intros k.
  rewrite Hrows, lexsort_two.
  rewrite !stable_sort_filter; [done | |];
    intros x y (Hx1 & Hx2 & Hx3 & Hx4) (Hy1 & Hy2 & Hy3 & Hy4);
    eapply key_leb_trans; eauto.
Qed.

Lemma merge_sort_stable_witness :
  ∃ stock_codes df0,
    (get_all_a_stock_codes sample_ak).2 = Ok stock_codes
    ∧ concat (non_empty_results
                (as_completed sample_order (submit_all sample_ak stock_codes)))
      = Ok df0
    ∧ ∀ k, filter (same_key k) (rows sample_final)
           = filter (same_key k) (rows df0).
Proof.
  apply (merge_sort_stable sample_ak sample_order output_file sample_final).
  apply (list_elem_of_lookup_2 _ 10%nat). vm_compute. reflexivity.
Defined.

(** C3, as the code has it.  [get_stock_history] catches the instances of
    [Exception] only.  When what the provider raises is one, the worker
    returns a frame; when the provider raises, or when [int] rejects the
    code of a ticker with rows, it prints one line that ends with the first
    50 characters of the error and returns the empty frame.  An exception
    of the provider that is no instance of [Exception] reaches the
    caller, and nothing is printed. *)
Theorem get_stock_history_catches_exceptions ak symbol name start_date end_date :
  ((∀ e, stock_zh_a_hist ak symbol start_date end_date EmptyString = Raise e →
         is_exception e = true) →
   (∃ out df,
      get_stock_history ak symbol name start_date end_date = (out, Ok df))
   ∧ ∀ e,
       stock_zh_a_hist ak symbol start_date end_date EmptyString = Raise e
       ∨ (∃ df, stock_zh_a_hist ak symbol start_date end_date EmptyString = Ok df
                ∧ empty_ df = false ∧ int symbol = Raise e) →
       ∃ shown,
         get_stock_history ak symbol name start_date end_date
         = ([Print ("股票 " ++ str_cell symbol ++ " 获取失败: " ++ shown ++ "...")],
            Ok DataFrame_new)
         ∧ String.prefix shown (exn_str e) = true
         ∧ String.length shown = Nat.min 50 (String.length (exn_str e)))
  ∧ (∀ e, stock_zh_a_hist ak symbol start_date end_date EmptyString = Raise e →
          is_exception e = false →
          get_stock_history ak symbol name start_date end_date = ([], Raise e)).
Proof.
  split; [| intros e; apply worker_abort].
  intros Hex. split.
  - destruct (worker_returns ak symbol name start_date end_date Hex)
      as [(out & -> & _) | (df & n & _ & _ & _ & ->)]; eauto.
  - intros e He. exists (Py.slice_to 50 (exn_str e)).
    destruct (slice_to_spec 50 (exn_str e)) as [Hp Hl].
    split; [| done].
    destruct He as [He | (df & Hdf & Hempty & He)].
    + apply worker_raise; [done | by apply Hex].
    + by eapply worker_bad_code.
Qed.

Lemma get_stock_history_catches_exceptions_witness :
  ∃ shown,
    get_stock_history sample_ak "000abc" (CStr "X") start_date end_date
    = ([Print ("股票 " ++ "000abc" ++ " 获取失败: " ++ shown ++ "...")],
       Ok DataFrame_new)
    ∧ String.prefix shown
        (exn_str (ValueError "invalid literal for int() with base 10: '000abc'"))
      = true
    ∧ String.length shown
      = Nat.min 50
          (String.length
             (exn_str (ValueError "invalid literal for int() with base 10: '000abc'"))).
Proof.
  refine (proj2 (proj1 (get_stock_history_catches_exceptions sample_ak "000abc"
                          (CStr "X") start_date end_date) _) _ _).
  - intros e H. vm_compute in H. discriminate.
  - right. eexists. split; [vm_compute; reflexivity |].
    split; vm_compute; reflexivity.
Defined.

(** C3, as the spec has it, fails: at a provider whose call raises
    SystemExit the worker returns no frame; the exception reaches the
    caller. *)
Lemma get_stock_history_never_raises_counterexample :
  get_stock_history exiting_ak "600000" (CStr "SPDB") start_date end_date
  = ([], Raise (BaseException "SystemExit" "1"))
  ∧ ¬ ∃ out df,
        get_stock_history exiting_ak "600000" (CStr "SPDB") start_date end_date
        = (out, Ok df).
Proof.
  split; [vm_compute; reflexivity |].
  intros (out & df & H). vm_compute in H. discriminate.
Qed.

(** C9. A ticker whose code is not an integer literal gets the empty frame
    whatever the provider returns or raises as an [Exception]; when the
    provider has rows for it, the failure of [int] is what the diagnostic
    shows. *)
Theorem unparseable_code_dropped ak (symbol : string) name start_date end_date :
  Py.parse_int symbol = None →
  ((∀ e, stock_zh_a_hist ak symbol start_date end_date EmptyString = Raise e →
         is_exception e = true) →
   (get_stock_history ak symbol name start_date end_date).2 = Ok DataFrame_new)
  ∧ ∀ df,
      stock_zh_a_hist ak symbol start_date end_date EmptyString = Ok df →
      empty_ df = false →
      ∃ e, int symbol = Raise e
           ∧ exn_class e = "ValueError"
           ∧ get_stock_history ak symbol name start_date end_date
             = ([diagnostic symbol e], Ok DataFrame_new).
Proof.
  intros Hparse. split.
  - intros Hex.
    destruct (worker_returns ak symbol name start_date end_date Hex)
      as [(out & -> & _) | (df & n & _ & _ & Hn & _)]; [done |].
    apply int_str in Hn. congruence.
  - intros df Hdf Hempty. destruct (int_str_raise symbol Hparse) as [e He].
    exists e. split; [done |]. split; [by apply (int_raises _ _ He) |].
    by apply (worker_bad_code ak symbol name _ _ df e).
Qed.

Lemma unparseable_code_dropped_witness :
  (get_stock_history sample_ak "000abc" (CStr "X") start_date end_date).2
  = Ok DataFrame_new
  ∧ ∀ df,
      stock_zh_a_hist sample_ak "000abc" start_date end_date EmptyString = Ok df →
      empty_ df = false →
      ∃ e, int "000abc" = Raise e
           ∧ exn_class e = "ValueError"
           ∧ get_stock_history sample_ak "000abc" (CStr "X") start_date end_date
             = ([diagnostic "000abc" e], Ok DataFrame_new).
Proof.
  destruct (unparseable_code_dropped sample_ak "000abc" (CStr "X")
              start_date end_date) as [H1 H2].
  - vm_compute. reflexivity.
  - split; [| exact H2]. apply H1. intros e H. vm_compute in H. discriminate.
Defined.

(** C7. When the provider has rows for a ticker (whose code is an integer
    literal), the worker returns, for each of them, a row whose
    turnover-rate and change-percent fields, where the frame has them and
    the value is not missing, hold the string form of the provider's value
    followed by "%"; a turnover rate 12.34 becomes "12.34%". *)
Theorem percent_fields_suffixed
    ak (symbol : string) name start_date end_date df n i r :
  stock_zh_a_hist ak symbol start_date end_date EmptyString = Ok df →
  empty_ df = false → Py.parse_int symbol = Some n →
  rows df !! i = Some r →
  ∃ out r',
    get_stock_history ak symbol name start_date end_date = ([], Ok out)
    ∧ rows out !! i = Some r'
    ∧ (∀ col, col ∈ [col_turnover; col_change] → col ∈ columns df →
         at_ r col ≠ CNaN →
         at_ r' col = CStr (str_cell (at_ r col) ++ "%"))
    ∧ (col_turnover ∈ columns df →
       at_ r col_turnover = CFloat (Float.mk false 1234 (-2)) →
       at_ r' col_turnover = CStr "12.34%").
Proof.
  intros Hdf Hempty Hparse%int_str Hr.
  destruct (worker_row ak symbol name _ _ df n i r Hdf Hempty Hparse Hr)
    as (out & Hout & Hrow).
  exists out, (processed_row (pandas3 ak) n name (columns df) r).
  split; [done |]. split; [done |]. split.
  - intros col Hcol Hin Hval.
    by rewrite processed_row_percent, percent_cell_value.
  - intros Hin Hval.
    rewrite processed_row_percent, Hval; [done | left | done].
Qed.

Lemma percent_fields_suffixed_witness :
  ∃ out r',
    get_stock_history sample_ak "600000" (CStr "SPDB") start_date end_date
    = ([], Ok out)
    ∧ rows out !! 0%nat = Some r'
    ∧ (∀ col, col ∈ [col_turnover; col_change] →
         col ∈ columns sample_rows_600000 →
         at_ (row [(col_date, CStr "2025-03-26");
                   ("open", CFloat (Float.mk false 105 (-1)));
                   (col_turnover, CFloat f12_34)]) col ≠ CNaN →
         at_ r' col
         = CStr (str_cell
                   (at_ (row [(col_date, CStr "2025-03-26");
                              ("open", CFloat (Float.mk false 105 (-1)));
                              (col_turnover, CFloat f12_34)]) col) ++ "%"))
    ∧ (col_turnover ∈ columns sample_rows_600000 →
       at_ (row [(col_date, CStr "2025-03-26");
                 ("open", CFloat (Float.mk false 105 (-1)));
                 (col_turnover, CFloat f12_34)]) col_turnover
       = CFloat (Float.mk false 1234 (-2)) →
       at_ r' col_turnover = CStr "12.34%").
Proof.
  apply (percent_fields_suffixed sample_ak "600000" (CStr "SPDB")
           start_date end_date sample_rows_600000 600000 0%nat).
  - vm_compute. reflexivity.
  - vm_compute. reflexivity.
  - vm_compute. reflexivity.
  - vm_compute. reflexivity.
Defined.

(** C10, as the code has it.  What a missing (NaN) turnover rate or change
    percent of a provider row becomes depends on the line of pandas: before
    pandas 3 the string "nan%", from pandas 3 on a missing value still. *)
Theorem missing_percent_by_pandas_line
    ak (symbol : string) name start_date end_date df n i r col :
  stock_zh_a_hist ak symbol start_date end_date EmptyString = Ok df →
  empty_ df = false → Py.parse_int symbol = Some n →
  rows df !! i = Some r →
  col ∈ [col_turnover; col_change] → col ∈ columns df →
  at_ r col = CNaN →
  ∃ out r',
    get_stock_history ak symbol name start_date end_date = ([], Ok out)
    ∧ rows out !! i = Some r'
    ∧ at_ r' col = if pandas3 ak then CNaN else CStr "nan%".
Proof.
  intros Hdf Hempty Hparse%int_str Hr Hcol Hin Hnan.
  destruct (worker_row ak symbol name _ _ df n i r Hdf Hempty Hparse Hr)
    as (out & Hout & Hrow).
  exists out, (processed_row (pandas3 ak) n name (columns df) r).
  split; [done |]. split; [done |].
  by rewrite processed_row_percent, Hnan, percent_cell_missing.
Qed.

Lemma missing_percent_by_pandas_line_witness :
  ∃ out r',
    get_stock_history sample_ak "600000" (CStr "SPDB") start_date end_date
    = ([], Ok out)
    ∧ rows out !! 1%nat = Some r'
    ∧ at_ r' col_turnover = CStr "nan%".
Proof.
  apply (missing_percent_by_pandas_line sample_ak "600000" (CStr "SPDB")
           start_date end_date sample_rows_600000 600000 1%nat
           (row [(col_date, CStr "2025-03-24"); ("open", CInt 10);
                 (col_turnover, CNaN)])).
  - vm_compute. reflexivity.
  - vm_compute. reflexivity.
  - vm_compute. reflexivity.
  - vm_compute. reflexivity.
  - apply (bool_decide_unpack _). vm_compute. reflexivity.
  - apply (bool_decide_unpack _). vm_compute. reflexivity.
  - vm_compute. reflexivity.
Defined.

(** C10, as stated, fails under pandas 3: the missing turnover rate of the
    second row of the sample frame is missing in the row the worker
    returns, and is not the string "nan%". *)
Lemma missing_percent_becomes_nan_string_counterexample :
  (∃ out r',
     get_stock_history sample_ak3 "600000" (CStr "SPDB") start_date end_date
     = ([], Ok out)
     ∧ rows out !! 1%nat = Some r'
     ∧ at_ r' col_turnover = CNaN)
  ∧ ¬ ∃ out r',
        get_stock_history sample_ak3 "600000" (CStr "SPDB") start_date end_date
        = ([], Ok out)
        ∧ rows out !! 1%nat = Some r'
        ∧ at_ r' col_turnover = CStr "nan%".
Proof.
  split.
  - eexists _, _. split; [vm_compute; reflexivity |].
    split; vm_compute; reflexivity.
  - intros (out & r' & Hout & Hrow & Hat).
    vm_compute in Hout. injection Hout as <-.
    vm_compute in Hrow. injection Hrow as <-.
    vm_compute in Hat. discriminate.
Qed.

(** C4. With a provider that raises instances of [Exception] only, the
    coordinator accumulates the non-empty results of the workers and
    nothing else.  A table that [main] writes holds the rows of their
    concatenation, as many as these results have together; [main] writes
    one when some result has a date column.  When every worker completes
    once, every non-empty result is among the accumulated ones once. *)
Theorem coordinator_keeps_non_empty ak order stock_codes :
  only_exceptions ak →
  (get_all_a_stock_codes ak).2 = Ok stock_codes →
  let futures := as_completed order (submit_all ak stock_codes) in
  let all_data := filter (λ df, empty_ df = false) (omap returned futures) in
  (collect futures []).2 = Ok all_data
  ∧ (∀ path df,
       ToCsv path df ∈ (main ak order).1 →
       ∃ df0,
         concat all_data = Ok df0 ∧ rows df ≡ₚ rows df0
         ∧ len df = sum_list (len <$> all_data))
  ∧ ((∃ f, f ∈ all_data ∧ col_date ∈ columns f) →
     ∃ df, ToCsv output_file df ∈ (main ak order).1
           ∧ len df = sum_list (len <$> all_data))
  ∧ (order ≡ₚ seq 0 (length (submit_all ak stock_codes)) →
     all_data
     ≡ₚ filter (λ df, empty_ df = false)
          (omap returned (submit_all ak stock_codes))).
Proof.
  intros Hex Hg futures all_data.
  assert (∀ path df,
            ToCsv path df ∈ (main ak order).1 →
            ∃ df0,
              concat all_data = Ok df0 ∧ rows df ≡ₚ rows df0
              ∧ len df = sum_list (len <$> all_data)) as Hwritten.
  { intros path df (stock_codes' & df0 & Hg' & Hc & _ & Hrows & _)%final_table.
    rewrite Hg in Hg'. injection Hg' as <-.
    exists df0. split; [done |].
    assert (rows df ≡ₚ rows df0) as Hperm by (by rewrite Hrows, lexsort_perm).
    split; [done |].
    apply concat_ok in Hc as (_ & _ & Hrows0).
    fold futures in Hrows0. change (non_empty_results futures) with all_data in Hrows0.
    unfold len. rewrite Hperm, Hrows0. change map with (@fmap list _).
    rewrite length_join, <- list_fmap_compose.
    f_equal. apply list_fmap_ext. intros _ f _. simpl. by rewrite length_fmap. }
  split; [| split; [done |]; split].
  - destruct (collect_spec futures []) as (out & -> & _).
    unfold futures. by rewrite (only_exceptions_no_abort ak order stock_codes Hex).
  - intros (f & Hf & Hdate).
    destruct (concat all_data) as [df0 | e] eqn:Hc.
    2:{ destruct all_data; [by apply elem_of_nil in Hf | discriminate]. }
    destruct (concat_has_stamps _ _ _ _ Hc) as [Hcode Hname].
    destruct (merge_and_save_run ak _ _ Hc Hcode Hname) as [_ Hrun].
    destruct Hrun as (df & shown & Hrun & _).
    { apply (elem_of_concat_columns _ _ col_date Hc). eauto. }
    destruct (main_run_returns ak order stock_codes Hex Hg)
      as (shown0 & Hmain & _).
    assert (ToCsv output_file df ∈ (main ak order).1) as Hin.
    { rewrite Hmain. cbn [fst]. apply elem_of_app. right.
      fold futures. change (non_empty_results futures) with all_data.
      rewrite Hrun. left. }
    exists df. split; [done |].
    by destruct (Hwritten _ _ Hin) as (? & _ & _ & ?).
  - intros Hp. unfold all_data, futures. by rewrite (as_completed_perm _ _ Hp).
Qed.

Lemma coordinator_keeps_non_empty_witness :
  let futures := as_completed sample_order (submit_all sample_ak sample_codes) in
  let all_data := filter (λ df, empty_ df = false) (omap returned futures) in
  (collect futures []).2 = Ok all_data
  ∧ (∃ df, ToCsv output_file df ∈ (main sample_ak sample_order).1
           ∧ len df = sum_list (len <$> all_data)
           ∧ len df = 4%nat)
  ∧ all_data
    ≡ₚ filter (λ df, empty_ df = false)
         (omap returned (submit_all sample_ak sample_codes)).
Proof.
  destruct (coordinator_keeps_non_empty sample_ak sample_order sample_codes
              sample_ak_only_exceptions)
    as (Hcollect & _ & Hwrites & Hall).
  { vm_compute. reflexivity. }
  split; [exact Hcollect |]. split.
  - destruct Hwrites as (df & Hin & Hlen).
    { eexists. split.
      - apply (list_elem_of_lookup_2 _ 0%nat). vm_compute. reflexivity.
      - apply (bool_decide_unpack _). vm_compute. reflexivity. }
    exists df. split; [exact Hin |]. split; [exact Hlen |].
    rewrite Hlen. vm_compute. reflexivity.
  - apply Hall. apply (bool_decide_unpack _). vm_compute. reflexivity.
Defined.

(** C5. When every worker returned an empty frame, [main] ends by
    reporting that no data was retrieved and writes no file; a file is
    written only when some worker returned a non-empty frame. *)
Theorem no_data_no_file ak order stock_codes :
  (get_all_a_stock_codes ak).2 = Ok stock_codes →
  let futures := as_completed order (submit_all ak stock_codes) in
  ((∀ future,
      future ∈ futures → ∃ df, returned future = Some df ∧ empty_ df = true) →
   (∃ shown, main ak order = ((shown ++ [Print "未获取到有效数据"])%list, Ok tt))
   ∧ ∀ path df, ToCsv path df ∉ (main ak order).1)
  ∧ (∀ path df,
       ToCsv path df ∈ (main ak order).1 →
       ∃ future result,
         future ∈ futures ∧ returned future = Some result
         ∧ empty_ result = false).
Proof.
  intros Hg futures. split.
  - intros Hall.
    assert (non_empty_results futures = []) as Hnone.
    { destruct (non_empty_results futures) as [|d ds] eqn:E; [done |].
      assert (d ∈ non_empty_results futures) as Hd by (rewrite E; left).
      unfold non_empty_results in Hd.
      apply list_elem_of_filter in Hd as [Hne (fut & Hfut & Hret)%list_elem_of_omap].
      destruct (Hall fut Hfut) as (d' & Hret' & Hempty). congruence. }
    assert (abort_of futures = None) as Hnoabort.
    { apply abort_of_none. intros fut Hfut.
      destruct (Hall fut Hfut) as (d & Hret & _). unfold returned in Hret.
      unfold aborted. by destruct fut.2. }
    destruct (main_run ak order stock_codes Hg) as (shown & Hshown & Hmain).
    fold futures in Hmain. rewrite Hnoabort, Hnone, merge_and_save_nothing in Hmain.
    cbn [fst snd] in Hmain. split; [by exists shown |].
    intros path df Hin. rewrite Hmain in Hin. cbn [fst] in Hin.
    apply elem_of_app in Hin as [Hin | Hin]; [by eapply Hshown |].
    by apply list_elem_of_singleton in Hin.
  - intros path df (stock_codes' & df0 & Hg' & Hc & _)%final_table.
    rewrite Hg in Hg'. injection Hg' as <-. fold futures in Hc.
    destruct (non_empty_results futures) as [|d ds] eqn:E; [done |].
    assert (d ∈ non_empty_results futures) as Hd by (rewrite E; left).
    unfold non_empty_results in Hd.
    apply list_elem_of_filter in Hd as [Hne (fut & Hfut & Hret)%list_elem_of_omap].
    by exists fut, d.
Qed.

Lemma no_data_no_file_witness :
  (∃ shown,
     main silent_ak sample_order
     = ((shown ++ [Print "未获取到有效数据"])%list, Ok tt))
  ∧ ∀ path df, ToCsv path df ∉ (main silent_ak sample_order).1.
Proof.
  refine (proj1 (no_data_no_file silent_ak sample_order sample_codes _) _);
    [vm_compute; reflexivity |].
  intros future Hin. vm_compute in Hin.
  repeat (apply elem_of_cons in Hin as [-> | Hin];
          [exists DataFrame_new; split; reflexivity |]).
  by apply elem_of_nil in Hin.
Defined.

(** C8. The labels of the table [main] writes are the stock code, the
    stock name and the date, then every other label of the collected
    frames, once, in the order of first appearance. *)
Theorem final_columns_order ak order path df :
  ToCsv path df ∈ (main ak order).1 →
  ∃ stock_codes,
    (get_all_a_stock_codes ak).2 = Ok stock_codes
    ∧ let all_data :=
        non_empty_results (as_completed order (submit_all ak stock_codes)) in
      columns df
      = ([col_code; col_name; col_date]
         ++ filter (λ col, col ∉ [col_code; col_name; col_date])
              (unique (mjoin (columns <$> all_data))))%list
      ∧ NoDup (columns df).
Proof.
  intros (stock_codes & df0 & Hg & Hc & Hcols & _)%final_table.
  exists stock_codes. split; [done |]. intros all_data.
  apply concat_ok in Hc as (_ & Hcols0 & _). rewrite Hcols0 in Hcols.
  split; [done |]. rewrite Hcols. apply NoDup_app. split; [| split].
  - apply (bool_decide_unpack _). by vm_compute.
  - intros c Hc [Hn _]%list_elem_of_filter. done.
  - apply NoDup_filter, NoDup_unique.
Qed.

Lemma final_columns_order_witness :
  ∃ stock_codes,
    (get_all_a_stock_codes sample_ak).2 = Ok stock_codes
    ∧ let all_data :=
        non_empty_results
          (as_completed sample_order (submit_all sample_ak stock_codes)) in
      columns sample_final
      = ([col_code; col_name; col_date]
         ++ filter (λ col, col ∉ [col_code; col_name; col_date])
              (unique (mjoin (columns <$> all_data))))%list
      ∧ NoDup (columns sample_final).
Proof.
  apply (final_columns_order sample_ak sample_order output_file sample_final).
  apply (list_elem_of_lookup_2 _ 10%nat). vm_compute. reflexivity.
Defined.

(** C6. For every input that [int] reads as a non-negative integer below
    1,000,000 the padding of the worker yields 6 characters and padding its
    result again changes nothing; [zfill(6)], the padding of the ticker
    list, changes nothing when applied twice and yields 6 characters on
    such an integer. *)
Theorem zero_padding_idempotent_six x n :
  Py.parse_int x = Some n → 0 ≤ n < 1000000 →
  ∃ p,
    pad x = Ok p ∧ String.length p = 6%nat ∧ pad p = Ok p
    ∧ Py.zfill 6 (Py.zfill 6 x) = Py.zfill 6 x
    ∧ String.length (Py.zfill 6 (str_cell (CInt n))) = 6%nat.
Proof.
  intros Hparse Hn. exists (Py.format_0gt6 n).
  unfold pad.
  rewrite (proj2 (int_str x n) Hparse),
          (proj2 (int_str _ n) (parse_int_format n Hn)).
  split; [done |]. split; [by apply length_format |]. split; [done |].
  split; [apply zfill_idempotent |].
  rewrite length_zfill. simpl str_cell.
  destruct (str_int_spec n) as (_ & Hl & _ & Hk); [lia |].
  specialize (Hk 5%nat ltac:(simpl; lia)). lia.
Qed.

Lemma zero_padding_idempotent_six_witness :
  ∃ p,
    pad " +1_7 " = Ok p ∧ String.length p = 6%nat ∧ pad p = Ok p
    ∧ Py.zfill 6 (Py.zfill 6 " +1_7 ") = Py.zfill 6 " +1_7 "
    ∧ String.length (Py.zfill 6 (str_cell (CInt 17))) = 6%nat.
Proof.
  apply (zero_padding_idempotent_six " +1_7 " 17).
  - vm_compute. reflexivity.
  - lia.
Defined.

(** * Further properties of the script *)

(** ** The ticker list *)

(** X1. When [get_all_a_stock_codes] returns, its frame has the labels
    code and name only and one row for each row of the provider's list;
    the code of a row is the provider's code as a string, filled with zeros
    to 6 characters or more, and its name is the provider's.  A missing
    code becomes the string 000nan before pandas 3 and stays missing from
    pandas 3 on. *)
Theorem ticker_list_padded ak stock_codes :
  (get_all_a_stock_codes ak).2 = Ok stock_codes →
  ∃ info,
    stock_info_a_code_name ak = Ok info
    ∧ columns stock_codes = ["code"; "name"]
    ∧ length (rows stock_codes) = length (rows info)
    ∧ ∀ i r,
        rows info !! i = Some r →
        ∃ r',
          rows stock_codes !! i = Some r'
          ∧ (at_ r "code" ≠ CNaN →
             at_ r' "code" = CStr (Py.zfill 6 (str_cell (at_ r "code")))
             ∧ String.length (Py.zfill 6 (str_cell (at_ r "code")))
               = Nat.max 6 (String.length (str_cell (at_ r "code"))))
          ∧ (at_ r "code" = CNaN →
             at_ r' "code" = if pandas3 ak then CNaN else CStr "000nan")
          ∧ at_ r' "name" = at_ r "name"
          ∧ ∀ c, c ∉ ["code"; "name"] → r' !! c = None.
Proof.
  intros Hok.
  destruct (get_all_a_stock_codes_cases ak)
    as [(e & _ & Hg) | [(info & _ & _ & Hg) | [(info & _ & _ & _ & Hg)
        | (info & Hinfo & _ & _ & Hg)]]];
    rewrite Hg in Hok; try done.
  injection Hok as <-. exists info. split; [done |]. split; [done |].
  cbn [rows astype_str_zfill]. split; [by rewrite !length_map |].
  intros i r Hr. eexists.
  change map with (@fmap list _). rewrite !list_lookup_fmap, Hr.
  cbn [fmap option_fmap option_map].
  split; [done |].
  rewrite (at_reindex ["code"; "name"] _ "code") by left.
  rewrite (at_reindex ["code"; "name"] _ "name") by (right; left).
  rewrite at_insert, at_insert_ne by done.
  split; [| split; [| split; [done |]]].
  - intros Hcode. split; [| apply length_zfill].
    by destruct (at_ r "code").
  - intros ->. by destruct (pandas3 ak).
  - intros c Hc. unfold reindex. apply map_lookup_filter_None. right.
    intros v _. done.
Qed.

Lemma ticker_list_padded_witness :
  ∃ info,
    stock_info_a_code_name sample_ak = Ok info
    ∧ columns sample_codes = ["code"; "name"]
    ∧ length (rows sample_codes) = length (rows info)
    ∧ ∀ i r,
        rows info !! i = Some r →
        ∃ r',
          rows sample_codes !! i = Some r'
          ∧ (at_ r "code" ≠ CNaN →
             at_ r' "code" = CStr (Py.zfill 6 (str_cell (at_ r "code")))
             ∧ String.length (Py.zfill 6 (str_cell (at_ r "code")))
               = Nat.max 6 (String.length (str_cell (at_ r "code"))))
          ∧ (at_ r "code" = CNaN → at_ r' "code" = CStr "000nan")
          ∧ at_ r' "name" = at_ r "name"
          ∧ ∀ c, c ∉ ["code"; "name"] → r' !! c = None.
Proof.
  apply (ticker_list_padded sample_ak sample_codes).
  vm_compute. reflexivity.
Defined.

(** X2. [get_all_a_stock_codes] prints nothing and raises only what the
    provider raised, the KeyError of a missing code column (for the label
    code), or the KeyError of a missing name column (for the list of the
    labels not in the index). *)
Theorem ticker_list_errors ak e :
  (get_all_a_stock_codes ak).1 = []
  ∧ ((get_all_a_stock_codes ak).2 = Raise e
     ↔ stock_info_a_code_name ak = Raise e
       ∨ ∃ info,
           stock_info_a_code_name ak = Ok info
           ∧ (("code" ∉ columns info) ∧ e = KeyError "code"
              ∨ "code" ∈ columns info ∧ ("name" ∉ columns info)
                ∧ e = Exception "KeyError" (Py.repr "['name'] not in index"))).
Proof.
  destruct (get_all_a_stock_codes_cases ak)
    as [(e' & Hp & Hg) | [(info & Hp & Hc & Hg) | [(info & Hp & Hc & Hn & Hg)
        | (info & Hp & Hc & Hn & Hg)]]];
    rewrite Hg, Hp; cbn [fst snd]; (split; [done |]).
  - split; [intros [= ->]; by left | intros [[= ->] | (info & [=] & _)]; done].
  - split.
    + intros [= <-]. right. exists info. split; [done |]. by left.
    + intros [[=] | (info' & [= <-] & [[_ ->] | (? & _)])]; done.
  - split.
    + intros [= <-]. right. exists info. split; [done |]. by right.
    + intros [[=] | (info' & [= <-] & [[? _] | (_ & _ & ->)])]; done.
  - split; [done |]. intros [[=] | (info' & [= <-] & He)].
    destruct He as [[? _] | (_ & ? & _)]; done.
Qed.

(** X3. When the ticker list cannot be loaded, [main] shows its opening
    line and ends with the exception of the loading: no worker runs, no
    progress bar opens, nothing is written. *)
Theorem main_without_ticker_list ak order e :
  (get_all_a_stock_codes ak).2 = Raise e →
  main ak order = ([Print "正在加载A股代码列表..."], Raise e).
Proof.
  intros He. unfold main, print, emit. rewrite bind_ok.
  destruct (get_all_a_stock_codes ak) as [out r] eqn:Hg.
  pose proof (get_all_a_stock_codes_silent ak) as Hs. rewrite Hg in Hs.
  simpl in He, Hs. subst out r. done.
Qed.

Lemma main_without_ticker_list_witness :
  main offline_ak sample_order
  = ([Print "正在加载A股代码列表..."],
     Raise (Exception "ConnectionError" "Connection aborted.")).
Proof.
  apply (main_without_ticker_list offline_ak sample_order).
  vm_compute. reflexivity.
Defined.

(** ** Progress and diagnostics *)

(** X4. Once the ticker list is loaded, [main] opens the progress bar
    once, for as many steps as the list has rows, and moves it one step for
    every future its loop gets to, whatever the result: one step for every
    completed future when no worker ends in an exception that is no
    [Exception], and then as many steps as there are tickers when every
    worker completes once. *)
Theorem progress_counts_every_future ak order stock_codes :
  (get_all_a_stock_codes ak).2 = Ok stock_codes →
  let futures := as_completed order (submit_all ak stock_codes) in
  List.filter is_pbar_open (main ak order).1 = [PbarOpen (len stock_codes)]
  ∧ length (List.filter is_pbar_update (main ak order).1)
    = length (attended futures)
  ∧ ((∀ future, future ∈ futures → aborted future = false) →
     length (List.filter is_pbar_update (main ak order).1) = length futures
     ∧ (order ≡ₚ seq 0 (len stock_codes) →
        length (List.filter is_pbar_update (main ak order).1)
        = len stock_codes)).
Proof.
  intros Hg futures. rewrite (main_trace ak order stock_codes Hg). cbn [fst].
  fold futures.
  set (merged := match abort_of futures with
                 | Some _ => []
                 | None => (merge_and_save ak (non_empty_results futures)).1
                 end).
  assert (List.filter is_pbar_open merged = []
          ∧ List.filter is_pbar_update merged = []) as [Hopen Hupdate].
  { unfold merged. destruct (abort_of futures); [done |].
    destruct (merge_and_save_events ak (non_empty_results futures))
      as [-> | [-> | (? & ? & ? & ? & ? & ->)]]; done. }
  assert (length (List.filter is_pbar_update
            ([Print "正在加载A股代码列表...";
              Print ("共获取到 " ++ Py.str_int (Z.of_nat (len stock_codes))
                     ++ " 只A股（代码已补零）");
              PrintValues "示例代码：" (values_tolist (head 3 stock_codes));
              PbarOpen (len stock_codes)]
             ++ loop_shown futures ++ merged)%list)
          = length (attended futures)) as Hcount.
  { rewrite !List.filter_app, Hupdate. unfold futures.
    rewrite (filter_loop_shown is_pbar_update true) by done.
    cbn. by rewrite app_nil_r, length_replicate. }
  split; [| split; [done |]].
  - rewrite !List.filter_app, Hopen. unfold futures.
    by rewrite (filter_loop_shown is_pbar_open false).
  - intros Hnone. rewrite Hcount, (attended_all futures Hnone).
    split; [done |]. intros Hperm. unfold futures.
    assert (len stock_codes = length (submit_all ak stock_codes)) as Hlen.
    { unfold submit_all, len. by rewrite length_map. }
    rewrite Hlen in Hperm |- *. by rewrite (as_completed_perm _ _ Hperm).
Qed.

Lemma progress_counts_every_future_witness :
  List.filter is_pbar_open (main sample_ak sample_order).1
  = [PbarOpen (len sample_codes)]
  ∧ length (List.filter is_pbar_update (main sample_ak sample_order).1)
    = length (attended (as_completed sample_order
                          (submit_all sample_ak sample_codes)))
  ∧ length (List.filter is_pbar_update (main sample_ak sample_order).1)
    = len sample_codes.
Proof.
  destruct (progress_counts_every_future sample_ak sample_order sample_codes)
    as (Hopen & Hcount & Hall).
  { vm_compute. reflexivity. }
  split; [exact Hopen |]. split; [exact Hcount |].
  apply Hall.
  - intros future Hin%elem_of_as_completed.
    exact (submitted_not_aborted _ _ _ sample_ak_only_exceptions Hin).
  - apply (bool_decide_unpack _). vm_compute. reflexivity.
Defined.

Lemma worker_output ak symbol name start_date end_date :
  (get_stock_history ak symbol name start_date end_date).1 = []
  ∨ ∃ e, (get_stock_history ak symbol name start_date end_date).1
         = [diagnostic (str_cell symbol) e].
Proof.
  destruct (stock_zh_a_hist ak symbol start_date end_date EmptyString)
    as [df | e] eqn:Hp.
  - destruct (empty_ df) eqn:Hempty.
    + left. by erewrite worker_no_rows.
    + destruct (int symbol) as [n | e] eqn:Hint.
      * left. by erewrite worker_rows.
      * right. exists e. by erewrite worker_bad_code.
  - destruct (is_exception e) eqn:He.
    + right. exists e. by erewrite worker_raise.
    + left. by erewrite worker_abort.
Qed.

(** X5. [main] never shows the diagnostic of its own exception handler
    (处理异常): no worker ends in an instance of [Exception], so the
    handler of the loop over the completed futures is never entered. *)
Theorem coordinator_handler_never_entered ak order text :
  Print text ∈ (main ak order).1 → String.prefix "处理异常: " text = false.
Proof.
  destruct (get_all_a_stock_codes ak).2 as [stock_codes | e] eqn:Hg.
  2:{ rewrite (main_crash _ _ _ Hg). cbn [fst].
      by intros [= ->]%list_elem_of_singleton. }
  rewrite (main_trace ak order stock_codes Hg). cbn [fst].
  set (futures := as_completed order (submit_all ak stock_codes)).
  assert (∀ f, f ∈ futures → Print text ∈ f.1 →
               String.prefix "处理异常: " text = false) as Hline.
  { intros f Hf Hin.
    apply elem_of_as_completed, elem_of_submit_all in Hf as (symbol & name & ->).
    destruct (worker_output ak symbol name start_date end_date)
      as [H | [e H]]; rewrite H in Hin.
    - by apply elem_of_nil in Hin.
    - by apply list_elem_of_singleton in Hin as [= ->]. }
  intros [Hin | Hin]%elem_of_app.
  { repeat (apply elem_of_cons in Hin as [[= ->] | Hin]; [done |]).
    apply elem_of_cons in Hin as [[=] | Hin].
    apply elem_of_cons in Hin as [[=] | Hin].
    by apply elem_of_nil in Hin. }
  apply elem_of_app in Hin as [Hin | Hin].
  - unfold loop_shown in Hin. apply elem_of_app in Hin as [Hin | Hin].
    + apply list_elem_of_join in Hin as (l & Hin & Hl).
      apply list_elem_of_fmap in Hl as (f & -> & Hf%elem_of_attended).
      unfold shown_for in Hin. apply elem_of_app in Hin as [Hin | Hin].
      * by apply (Hline f).
      * by apply list_elem_of_singleton in Hin.
    + apply list_elem_of_join in Hin as (l & Hin & Hl).
      apply list_elem_of_fmap in Hl as (f & -> & Hf%elem_of_drop).
      by apply (Hline f).
  - destruct (abort_of futures); [by apply elem_of_nil in Hin |].
    destruct (merge_and_save_events ak (non_empty_results futures))
      as [H | [H | (? & ? & ? & ? & ? & H)]]; rewrite H in Hin.
    + by apply list_elem_of_singleton in Hin as [= ->].
    + by apply elem_of_nil in Hin.
    + apply elem_of_cons in Hin as [[=] | Hin].
      repeat (apply elem_of_cons in Hin as [[= ->] | Hin]; [done |]).
      apply elem_of_cons in Hin as [[=] | Hin].
      by apply elem_of_nil in Hin.
Qed.

Lemma coordinator_handler_never_entered_witness :
  String.prefix "处理异常: "
    "股票 000abc 获取失败: invalid literal for int() with base 10: '000abc'..."
  = false.
Proof.
  apply (coordinator_handler_never_entered sample_ak sample_order).
  apply (list_elem_of_lookup_2 _ 4%nat). vm_compute. reflexivity.
Defined.

(** ** The merge, end to end *)

(** X6. With a provider that raises instances of [Exception] only and some
    non-empty result collected, [main] needs a date column: when no
    collected frame has one, the sort raises KeyError for it and no file is
    written; when some collected frame has one, [main] ends normally and
    writes the output file exactly once. *)
Theorem main_needs_a_date_column ak order stock_codes :
  only_exceptions ak →
  (get_all_a_stock_codes ak).2 = Ok stock_codes →
  non_empty_results (as_completed order (submit_all ak stock_codes)) ≠ [] →
  ((∀ f, f ∈ non_empty_results (as_completed order (submit_all ak stock_codes)) →
         col_date ∉ columns f) →
   (main ak order).2 = Raise (KeyError col_date)
   ∧ List.filter is_to_csv (main ak order).1 = [])
  ∧ ((∃ f, f ∈ non_empty_results (as_completed order (submit_all ak stock_codes))
           ∧ col_date ∈ columns f) →
     (main ak order).2 = Ok tt
     ∧ ∃ df, List.filter is_to_csv (main ak order).1 = [ToCsv output_file df]).
Proof.
  intros Hex Hg Hne. rewrite (main_trace ak order stock_codes Hg).
  rewrite (only_exceptions_no_abort ak order stock_codes Hex). cbn [fst snd].
  set (all_data := non_empty_results _) in *.
  destruct (concat all_data) as [df0 | e] eqn:Hc.
  2:{ destruct all_data; [done | discriminate]. }
  destruct (concat_has_stamps _ _ _ _ Hc) as [Hcode Hname].
  destruct (merge_and_save_run ak _ _ Hc Hcode Hname) as [Hnodate Hdate].
  pose proof (elem_of_concat_columns _ _ col_date Hc) as Hiff.
  rewrite !List.filter_app.
  rewrite (filter_loop_shown is_to_csv false) by done.
  cbn [List.filter is_to_csv app].
  split.
  - intros Hall. rewrite Hnodate; [done |].
    intros (f & Hf & Hin)%Hiff. by apply (Hall f).
  - intros Hsome%Hiff. destruct (Hdate Hsome) as (df & shown & -> & Hshown).
    cbn [fst snd List.filter is_to_csv]. rewrite Hshown. eauto.
Qed.

Lemma main_needs_a_date_column_witness :
  (main dateless_ak sample_order).2 = Raise (KeyError col_date)
  ∧ List.filter is_to_csv (main dateless_ak sample_order).1 = [].
Proof.
  refine (proj1 (main_needs_a_date_column dateless_ak sample_order sample_codes
                   dateless_ak_only_exceptions _ _) _).
  - vm_compute. reflexivity.
  - vm_compute. discriminate.
  - intros f Hf. vm_compute in Hf.
    repeat (apply elem_of_cons in Hf as [-> | Hf];
            [apply (bool_decide_unpack _); vm_compute; reflexivity |]).
    by apply elem_of_nil in Hf.
Defined.

(** ** More on the fetch worker *)

(** X7. For a ticker with rows and an integer code, the worker prints
    nothing and returns the provider's frame, stamped: the same number of
    rows, the provider's labels followed by the code and name labels
    where the provider had none, every row carrying the padded code and
    the name in place of whatever the provider put there, and every other
    field, also a percent field whose label the frame lacks, left as it
    was. *)
Theorem worker_stamps_rows ak (symbol : string) name start_date end_date df n :
  stock_zh_a_hist ak symbol start_date end_date EmptyString = Ok df →
  empty_ df = false → Py.parse_int symbol = Some n →
  ∃ out,
    get_stock_history ak symbol name start_date end_date = ([], Ok out)
    ∧ len out = len df
    ∧ columns out
      = (columns df
         ++ (if decide (col_code ∈ columns df) then [] else [col_code])
         ++ (if decide (col_name ∈ columns df) then [] else [col_name]))%list
    ∧ ∀ i r,
        rows df !! i = Some r →
        ∃ r',
          rows out !! i = Some r'
          ∧ at_ r' col_code = CStr (Py.format_0gt6 n)
          ∧ at_ r' col_name = name
          ∧ ∀ c, c ≠ col_code → c ≠ col_name →
                 (c = col_turnover ∨ c = col_change → c ∉ columns df) →
                 r' !! c = r !! c.
Proof.
  intros Hdf Hempty Hparse%int_str.
  exists (post_process (pandas3 ak) n name df).
  split; [by apply worker_rows |]. split; [| split].
  - unfold len. by rewrite post_process_rows, length_map.
  - rewrite post_process_columns_eq. unfold setitem. cbn [columns].
    destruct labels_apart as (_ & _ & _ & _ & _ & Hcn & _).
    destruct (decide (col_code ∈ columns df)) as [Hc | Hc]; cbv iota.
    + destruct (decide (col_name ∈ columns df)); by rewrite ?app_nil_r.
    + destruct (decide (col_name ∈ columns df)) as [Hn | Hn].
      * rewrite decide_True by (apply elem_of_app; by left).
        by rewrite app_nil_r.
      * rewrite decide_False; [by rewrite <- app_assoc |].
        intros [? | ?%list_elem_of_singleton]%elem_of_app; [done | congruence].
  - intros i r Hr. exists (processed_row (pandas3 ak) n name (columns df) r).
    rewrite post_process_rows. change map with (@fmap list _).
    rewrite list_lookup_fmap, Hr. split; [done |].
    split; [apply processed_row_code |]. split; [apply processed_row_name |].
    intros c. apply processed_row_other.
Qed.

Lemma worker_stamps_rows_witness :
  ∃ out,
    get_stock_history sample_ak "600000" (CStr "SPDB") start_date end_date
    = ([], Ok out)
    ∧ len out = len sample_rows_600000
    ∧ columns out
      = (columns sample_rows_600000
         ++ (if decide (col_code ∈ columns sample_rows_600000) then []
             else [col_code])
         ++ (if decide (col_name ∈ columns sample_rows_600000) then []
             else [col_name]))%list
    ∧ ∀ i r,
        rows sample_rows_600000 !! i = Some r →
        ∃ r',
          rows out !! i = Some r'
          ∧ at_ r' col_code = CStr (Py.format_0gt6 600000)
          ∧ at_ r' col_name = CStr "SPDB"
          ∧ ∀ c, c ≠ col_code → c ≠ col_name →
                 (c = col_turnover ∨ c = col_change →
                  c ∉ columns sample_rows_600000) →
                 r' !! c = r !! c.
Proof.
  apply (worker_stamps_rows sample_ak "600000" (CStr "SPDB")
           start_date end_date sample_rows_600000 600000).
  - vm_compute. reflexivity.
  - vm_compute. reflexivity.
  - vm_compute. reflexivity.
Defined.

(** X8. The outcome of the worker, for any symbol and any provider.  It
    ends in an exception exactly when the provider raised one that is no
    instance of [Exception], and that is the exception.  It prints at most
    one line, and none exactly when the provider answered, with no rows or
    for a symbol that [int] accepts, or raised such an exception.  The
    frame it returns is non-empty exactly when the provider had rows and
    [int] accepts the symbol: a ticker without rows, a failed request and a
    code that [int] rejects all give the same empty frame. *)
Theorem worker_outcome ak symbol name start_date end_date :
  ((get_stock_history ak symbol name start_date end_date).1 = []
   ↔ (∃ df, stock_zh_a_hist ak symbol start_date end_date EmptyString = Ok df
            ∧ (empty_ df = true ∨ ∃ n, int symbol = Ok n))
     ∨ ∃ e, stock_zh_a_hist ak symbol start_date end_date EmptyString = Raise e
            ∧ is_exception e = false)
  ∧ (length (get_stock_history ak symbol name start_date end_date).1 ≤ 1)%nat
  ∧ (∀ e, (get_stock_history ak symbol name start_date end_date).2 = Raise e
          ↔ stock_zh_a_hist ak symbol start_date end_date EmptyString = Raise e
            ∧ is_exception e = false)
  ∧ ∀ out,
      (get_stock_history ak symbol name start_date end_date).2 = Ok out →
      (empty_ out = false
       ↔ ∃ df, stock_zh_a_hist ak symbol start_date end_date EmptyString = Ok df
               ∧ empty_ df = false ∧ ∃ n, int symbol = Ok n)
      ∧ (empty_ out = true → out = DataFrame_new).
Proof.
  destruct (stock_zh_a_hist ak symbol start_date end_date EmptyString)
    as [df | e] eqn:Hp.
  - destruct (empty_ df) eqn:Hempty.
    + rewrite (worker_no_rows ak symbol name _ _ df Hp Hempty). cbn [fst snd].
      split; [split; [eauto | done] |]. split; [simpl; lia |].
      split; [intros e; split; [done | by intros [[=] _]] |].
      intros out [= <-]. split; [| done].
      split; [done |]. intros (df' & [= <-] & He & _). congruence.
    + destruct (int symbol) as [n | e] eqn:Hint.
      * rewrite (worker_rows ak symbol name _ _ df n Hp Hempty Hint).
        cbn [fst snd]. split; [split; [eauto 6 | done] |]. split; [simpl; lia |].
        split; [intros e; split; [done | by intros [[=] _]] |].
        intros out [= <-].
        rewrite (worker_frame_not_empty _ n name df Hempty).
        split; [| done]. split; [eauto 6 | done].
      * rewrite (worker_bad_code ak symbol name _ _ df e Hp Hempty Hint).
        cbn [fst snd]. split.
        { split; [done |].
          intros [(df' & [= <-] & [He | [? ?]]) | (? & [=] & _)]; congruence. }
        split; [simpl; lia |].
        split; [intros e'; split; [done | by intros [[=] _]] |].
        intros out [= <-]. split; [| done].
        split; [done |]. intros (df' & _ & _ & [? ?]). congruence.
  - destruct (is_exception e) eqn:He.
    + rewrite (worker_raise ak symbol name _ _ e Hp He). cbn [fst snd]. split.
      { split; [done |]. intros [(df & [=] & _) | (e' & [= <-] & ?)]. congruence. }
      split; [simpl; lia |].
      split; [intros e'; split; [done | intros [[= <-] ?]; congruence] |].
      intros out [= <-]. split; [| done].
      split; [done |]. intros (df & [=] & _).
    + rewrite (worker_abort ak symbol name _ _ e Hp He). cbn [fst snd].
      split; [split; [eauto | done] |]. split; [simpl; lia |].
      split; [intros e'; split; [by intros [= <-] | by intros [[= <-] _]] |].
      intros out [=].
Qed.

(** ** Where the rows of the table come from *)

Lemma kept_frames_ticker ak order stock_codes f :
  f ∈ non_empty_results (as_completed order (submit_all ak stock_codes)) →
  ∃ ticker n df,
    ticker ∈ rows stock_codes
    ∧ stock_zh_a_hist ak (at_ ticker "code") start_date end_date EmptyString
      = Ok df
    ∧ int (at_ ticker "code") = Ok n
    ∧ empty_ df = false
    ∧ f = post_process (pandas3 ak) n (at_ ticker "name") df.
Proof.
  unfold non_empty_results.
  intros [Hne (fut & Hfut & Hret)%list_elem_of_omap]%list_elem_of_filter.
  apply elem_of_as_completed in Hfut. unfold submit_all in Hfut.
  apply list_elem_of_fmap in Hfut as (ticker & -> & Hticker).
  unfold returned in Hret.
  destruct (worker_cases ak (at_ ticker "code") (at_ ticker "name")
              start_date end_date)
    as [(o & Ho & _) | [(d & n & Hp & He & Hn & Ho) | (e & _ & _ & Ho)]];
    rewrite Ho in Hret; simpl in Hret; [| | done]; injection Hret as <-; [done |].
  by exists ticker, n, d.
Qed.

(** X9. Every row of the table [main] writes belongs to a ticker of the
    loaded list: its stock code is the padded integer value of that
    ticker's code, and the provider answered for that ticker with a frame
    holding a row with the same other fields and that ticker's name, an
    int among them being written as a float where the concatenation turns
    the column into floats. *)
Theorem final_rows_from_tickers ak order path df r :
  ToCsv path df ∈ (main ak order).1 → r ∈ rows df →
  ∃ stock_codes ticker n provided r0,
    (get_all_a_stock_codes ak).2 = Ok stock_codes
    ∧ ticker ∈ rows stock_codes
    ∧ int (at_ ticker "code") = Ok n
    ∧ stock_zh_a_hist ak (at_ ticker "code") start_date end_date EmptyString
      = Ok provided
    ∧ r0 ∈ rows provided
    ∧ at_ r col_code = CStr (Py.format_0gt6 n)
    ∧ let all_data :=
        non_empty_results (as_completed order (submit_all ak stock_codes)) in
      at_ r col_name
      = (if upcasts all_data col_name then upcast (at_ ticker "name")
         else at_ ticker "name")
      ∧ ∀ c, c ∈ columns provided →
             c ∉ [col_code; col_name; col_turnover; col_change] →
             at_ r c
             = if upcasts all_data c then upcast (at_ r0 c) else at_ r0 c.
Proof.
  intros (stock_codes & df0 & Hg & Hc & _ & Hrows & _)%final_table Hr.
  rewrite Hrows, lexsort_perm in Hr.
  destruct (elem_of_concat_rows _ _ _ Hc Hr) as (f & r1 & Hf & Hr1 & -> & _).
  apply kept_frames_ticker in Hf as (ticker & n & d & Ht & Hp & Hn & _ & ->).
  rewrite post_process_rows in Hr1.
  apply list_elem_of_fmap in Hr1 as (r0 & -> & Hr0).
  exists stock_codes, ticker, n, d, r0.
  repeat (split; [done |]).
  split; [| split].
  - apply at_concat_row_str; [| apply processed_row_code].
    apply post_process_columns. auto.
  - rewrite at_concat_row by (apply post_process_columns; auto).
    by rewrite processed_row_name.
  - intros c Hc' Hnot. rewrite at_concat_row by (apply post_process_columns; auto).
    assert (at_ (processed_row (pandas3 ak) n (at_ ticker "name") (columns d) r0) c
            = at_ r0 c) as ->; [| done].
    unfold at_. rewrite processed_row_other; [done | | |];
      try (intros ->; apply Hnot; set_solver).
    intros [-> | ->]; exfalso; apply Hnot; set_solver.
Qed.

Lemma final_rows_from_tickers_witness :
  ∃ stock_codes ticker n provided r0,
    (get_all_a_stock_codes sample_ak).2 = Ok stock_codes
    ∧ ticker ∈ rows stock_codes
    ∧ int (at_ ticker "code") = Ok n
    ∧ stock_zh_a_hist sample_ak (at_ ticker "code") start_date end_date
        EmptyString = Ok provided
    ∧ r0 ∈ rows provided
    ∧ at_ sample_row_2 col_code = CStr (Py.format_0gt6 n)
    ∧ let all_data :=
        non_empty_results
          (as_completed sample_order (submit_all sample_ak stock_codes)) in
      at_ sample_row_2 col_name
      = (if upcasts all_data col_name then upcast (at_ ticker "name")
         else at_ ticker "name")
      ∧ ∀ c, c ∈ columns provided →
             c ∉ [col_code; col_name; col_turnover; col_change] →
             at_ sample_row_2 c
             = if upcasts all_data c then upcast (at_ r0 c) else at_ r0 c.
Proof.
  apply (final_rows_from_tickers sample_ak sample_order output_file sample_final).
  - apply (list_elem_of_lookup_2 _ 10%nat). vm_compute. reflexivity.
  - apply (list_elem_of_lookup_2 _ 2%nat). vm_compute. reflexivity.
Defined.

(** ** The completion order *)

(** X10. With a provider that raises instances of [Exception] only, the
    order in which the workers complete does not change how [main] ends,
    nor what the written table holds: for two runs in which every worker
    completes once, the results of [main] are equal, and the two tables
    have the same file name, the same rows up to their order, the same
    labels up to their order, and the same first three labels. *)
Theorem completion_order_immaterial ak order1 order2 stock_codes :
  only_exceptions ak →
  (get_all_a_stock_codes ak).2 = Ok stock_codes →
  order1 ≡ₚ seq 0 (len stock_codes) → order2 ≡ₚ seq 0 (len stock_codes) →
  (main ak order1).2 = (main ak order2).2
  ∧ ∀ path1 df1 path2 df2,
      ToCsv path1 df1 ∈ (main ak order1).1 →
      ToCsv path2 df2 ∈ (main ak order2).1 →
      path1 = path2 ∧ rows df1 ≡ₚ rows df2 ∧ columns df1 ≡ₚ columns df2
      ∧ take 3 (columns df1) = take 3 (columns df2).
Proof.
  intros Hex Hg H1 H2.
  pose proof (collected_perm ak order1 order2 stock_codes H1 H2) as Hperm.
  split.
  - rewrite !(main_trace ak _ stock_codes Hg).
    rewrite !(only_exceptions_no_abort ak _ stock_codes Hex). cbn [snd].
    set (data1 := non_empty_results (as_completed order1 _)) in *.
    set (data2 := non_empty_results (as_completed order2 _)) in *.
    destruct (concat data1) as [d1 | e1] eqn:Hc1.
    2:{ destruct data1; [| discriminate].
        apply Permutation_nil_l in Hperm as ->. done. }
    destruct (concat data2) as [d2 | e2] eqn:Hc2.
    2:{ destruct data2; [| discriminate].
        apply Permutation_nil_r in Hperm. rewrite Hperm in Hc1. discriminate. }
    destruct (concat_has_stamps _ _ _ _ Hc1) as [Hcode1 Hname1].
    destruct (concat_has_stamps _ _ _ _ Hc2) as [Hcode2 Hname2].
    destruct (merge_and_save_run ak _ _ Hc1 Hcode1 Hname1) as [Hno1 Hyes1].
    destruct (merge_and_save_run ak _ _ Hc2 Hcode2 Hname2) as [Hno2 Hyes2].
    destruct (concat_columns_perm _ _ _ _ Hperm Hc1 Hc2) as [Hcols _].
    destruct (decide (col_date ∈ columns d1)) as [Hd | Hd].
    + destruct (Hyes1 Hd) as (? & ? & -> & _).
      destruct (Hyes2 ltac:(by rewrite <- Hcols)) as (? & ? & -> & _). done.
    + rewrite (Hno1 Hd), (Hno2 ltac:(by rewrite <- Hcols)). done.
  - intros path1 df1 path2 df2
      (sc1 & d1 & Hg1 & Hc1 & Hcols1 & Hrows1 & ->)%final_table
      (sc2 & d2 & Hg2 & Hc2 & Hcols2 & Hrows2 & ->)%final_table.
    rewrite Hg in Hg1, Hg2. injection Hg1 as <-. injection Hg2 as <-.
    destruct (concat_columns_perm _ _ _ _ Hperm Hc1 Hc2) as [Hcols Hrows].
    split; [done |]. split; [| split].
    + by rewrite Hrows1, Hrows2, !lexsort_perm.
    + rewrite Hcols1, Hcols2. by rewrite Hcols.
    + by rewrite Hcols1, Hcols2.
Qed.

Lemma completion_order_immaterial_witness :
  (main sample_ak sample_order).2 = (main sample_ak [0; 1; 2; 3]%nat).2
  ∧ ∀ path1 df1 path2 df2,
      ToCsv path1 df1 ∈ (main sample_ak sample_order).1 →
      ToCsv path2 df2 ∈ (main sample_ak [0; 1; 2; 3]%nat).1 →
      path1 = path2 ∧ rows df1 ≡ₚ rows df2 ∧ columns df1 ≡ₚ columns df2
      ∧ take 3 (columns df1) = take 3 (columns df2).
Proof.
  apply (completion_order_immaterial sample_ak sample_order [0; 1; 2; 3]%nat
           sample_codes sample_ak_only_exceptions).
  - vm_compute. reflexivity.
  - apply (bool_decide_unpack _). vm_compute. reflexivity.
  - apply (bool_decide_unpack _). vm_compute. reflexivity.
Defined.

(** ** The two paddings *)

Lemma digit_value_inj c d :
  Py.is_digit c = true → Py.is_digit d = true →
  Py.digit_value c = Py.digit_value d → c = d.
Proof.
  unfold Py.digit_value. intros _ _ H.
  rewrite <- (ascii_N_embedding c), <- (ascii_N_embedding d). f_equal. lia.
Qed.

Lemma digit_value_range c : Py.is_digit c = true → 0 ≤ Py.digit_value c < 10.
Proof.
  unfold Py.is_digit, Py.digit_value. intros [H1 H2]%andb_true_iff.
  apply N.leb_le in H1. apply N.leb_le in H2. lia.
Qed.

(** Reading digits after an accumulator [a] shifts [a] by their number. *)
Lemma literal_value_acc u :
  all_digits u = true →
  ∃ v, 0 ≤ v < 10 ^ Z.of_nat (String.length u)
       ∧ ∀ a, Py.literal_value a u = Some (a * 10 ^ Z.of_nat (String.length u) + v).
Proof.
  induction u as [|c u IH]; intros Hu.
  { exists 0. split; [simpl; lia |]. intros a. simpl. f_equal. lia. }
  simpl in Hu. apply andb_true_iff in Hu as [Hc Hu].
  destruct (IH Hu) as (v & Hv & Hlit).
  pose proof (digit_value_range c Hc) as Hd.
  exists (Py.digit_value c * 10 ^ Z.of_nat (String.length u) + v).
  cbn [String.length]. rewrite Nat2Z.inj_succ, Z.pow_succ_r by lia.
  split; [nia |]. intros a. cbn [Py.literal_value]. rewrite Hc, Hlit.
  f_equal. lia.
Qed.

(** Two digit strings of one length with one value are equal. *)
Lemma literal_value_inj u : ∀ w,
  all_digits u = true → all_digits w = true →
  String.length u = String.length w →
  Py.literal_value 0 u = Py.literal_value 0 w → u = w.
Proof.
  induction u as [|c u IH]; intros [|d w] Hu Hw Hlen Hval; try done.
  simpl in Hu, Hw. apply andb_true_iff in Hu as [Hc Hu].
  apply andb_true_iff in Hw as [Hd Hw].
  injection Hlen as Hlen.
  destruct (literal_value_acc u Hu) as (v1 & Hv1 & Hl1).
  destruct (literal_value_acc w Hw) as (v2 & Hv2 & Hl2).
  cbn [Py.literal_value] in Hval. rewrite Hc, Hd, Hl1, Hl2 in Hval.
  rewrite <- Hlen in Hv2, Hval. injection Hval as Hval.
  pose proof (digit_value_range c Hc). pose proof (digit_value_range d Hd).
  set (P := 10 ^ Z.of_nat (String.length u)) in *.
  assert (Py.digit_value c = Py.digit_value d) as Hcd.
  { destruct (Z.lt_trichotomy (Py.digit_value c) (Py.digit_value d))
      as [Hlt | [Heq | Hgt]]; [exfalso | done | exfalso].
    - assert ((Py.digit_value c + 1) * P ≤ Py.digit_value d * P) by nia. lia.
    - assert ((Py.digit_value d + 1) * P ≤ Py.digit_value c * P) by nia. lia. }
  assert (v1 = v2) as Hv by (rewrite Hcd in Hval; lia).
  f_equal; [by apply digit_value_inj |].
  apply IH; try done. rewrite (Hl1 0), (Hl2 0), <- Hlen. by rewrite Hv.
Qed.

Lemma all_digits_format n : 0 ≤ n → all_digits (Py.format_0gt6 n) = true.
Proof.
  intros Hn. destruct (str_int_spec n Hn) as (Ha & _).
  unfold Py.format_0gt6, Py.rjust. by rewrite all_digits_app, all_digits_zeros.
Qed.

Lemma zfill_digits s :
  all_digits s = true → (String.length s ≤ 6)%nat →
  all_digits (Py.zfill 6 s) = true ∧ String.length (Py.zfill 6 s) = 6%nat.
Proof.
  intros Hs Hlen. split; [| rewrite length_zfill; lia].
  unfold Py.zfill. destruct (6 <=? String.length s)%nat; [done |].
  destruct s as [|c s]; [apply all_digits_zeros |].
  pose proof Hs as [Hc _]%andb_true_iff.
  destruct (digit_not_sign c Hc) as [-> ->]. cbn [orb].
  by rewrite all_digits_app, all_digits_zeros.
Qed.

(** X11. The two paddings agree on the codes of the ticker list: for a
    code of at most 6 decimal digits, padding the symbol that
    [get_all_a_stock_codes] made of it (zfill) once more in the worker
    (format of its integer value) gives that same symbol, so the code
    stamped on the rows is the symbol the provider was asked for. *)
Theorem repadding_keeps_the_symbol s :
  all_digits s = true → (String.length s ≤ 6)%nat →
  pad (Py.zfill 6 s) = Ok (Py.zfill 6 s).
Proof.
  intros Hs Hlen. destruct (zfill_digits s Hs Hlen) as [Ha Hl].
  destruct (literal_value_acc _ Ha) as (v & Hv & Hlit).
  rewrite Hl in Hv. change (10 ^ Z.of_nat 6) with 1000000 in Hv.
  pose proof six_within_limit as H6.
  assert (Py.parse_int (Py.zfill 6 s) = Some v) as Hparse.
  { rewrite parse_int_digits by (done || lia). rewrite Hlit. f_equal. }
  unfold pad. rewrite (proj2 (int_str _ v) Hparse). f_equal.
  apply literal_value_inj.
  - apply all_digits_format. lia.
  - done.
  - rewrite length_format, Hl by lia. done.
  - rewrite <- !parse_int_digits; try done.
    + rewrite parse_int_format by lia. done.
    + lia.
    + apply all_digits_format. lia.
    + rewrite length_format by lia. lia.
Qed.

Lemma repadding_keeps_the_symbol_witness : pad (Py.zfill 6 "42") = Ok (Py.zfill 6 "42").
Proof.
  apply (repadding_keeps_the_symbol "42").
  - vm_compute. reflexivity.
  - simpl. lia.
Defined.

Lemma append_assoc (s t u : string) : (s ++ t) ++ u = s ++ (t ++ u).
Proof.
  induction s as [|c s IH]; [done |].
  change (String c ((s ++ t) ++ u) = String c (s ++ (t ++ u))). by rewrite IH.
Qed.

Lemma rstrip_cons c s :
  Py.rstrip (String c s)
  = match Py.rstrip s with
    | EmptyString => if Py.is_space c then EmptyString else String c EmptyString
    | String d r => String c (String d r)
    end.
Proof. done. Qed.

Lemma rstrip_app_digits s t :
  all_digits t = true → (1 ≤ String.length t)%nat →
  Py.rstrip (s ++ t) = s ++ t.
Proof.
  intros Ht Hl. induction s as [|c s IH]; [by apply rstrip_digits |].
  change (String c s ++ t) with (String c (s ++ t)). rewrite rstrip_cons, IH.
  destruct (s ++ t) eqn:E; [| done].
  apply (f_equal String.length) in E. rewrite length_append in E. simpl in E. lia.
Qed.

Lemma parse_int_none s :
  Py.unsigned_literal (Py.signed_body s).2 = None → Py.parse_int s = None.
Proof.
  unfold Py.parse_int. destruct (Py.signed_body s) as [minus body]. cbn [snd].
  intros ->. by destruct (Py.over_limit s).
Qed.

Lemma str_int_negative n :
  n < 0 →
  ∃ ds, Py.str_int n = String "-" ds ∧ all_digits ds = true
        ∧ (1 ≤ String.length ds)%nat
        ∧ ∀ k, - n < 10 ^ Z.of_nat (S k) → (String.length ds ≤ S k)%nat.
Proof.
  intros Hn. unfold Py.str_int. destruct (Z.ltb_spec n 0); [| lia].
  eexists. split; [done |].
  destruct (digits_spec (Z.to_nat (Z.log2 (- n))) (- n)) as (Ha & Hl & _ & Hk).
  { split; [lia | apply log2_fuel; lia]. }
  done.
Qed.

(** X12. The padding of the worker puts its zeros before the sign: for a
    code that reads as a negative integer above -10000 the padded string
    has 6 characters and is not an integer literal, so padding it again
    raises ValueError. *)
Theorem negative_code_padding_not_idempotent x n :
  Py.parse_int x = Some n → -10000 < n < 0 →
  ∃ p e,
    pad x = Ok p ∧ String.length p = 6%nat
    ∧ pad p = Raise e ∧ exn_class e = "ValueError".
Proof.
  intros Hparse Hn.
  destruct (str_int_negative n) as (ds & Hstr & Ha & Hl & Hk); [lia |].
  specialize (Hk 3%nat ltac:(simpl; lia)).
  assert (Py.format_0gt6 n
          = String "0" (Py.repeat_char (4 - String.length ds) "0"
                        ++ String "-" ds)) as Hp.
  { unfold Py.format_0gt6, Py.rjust. rewrite Hstr. cbn [String.length].
    replace (6 - S (String.length ds))%nat
      with (S (4 - String.length ds)) by lia. done. }
  assert (Py.parse_int (Py.format_0gt6 n) = None) as Hnone.
  { rewrite Hp. set (zeros := Py.repeat_char (4 - String.length ds) "0").
    assert (Py.strip (String "0" (zeros ++ String "-" ds))
            = String "0" (zeros ++ String "-" ds)) as Hstrip.
    { assert (String "0" (zeros ++ String "-" ds)
              = (String "0" zeros ++ String "-" EmptyString) ++ ds) as Hshape.
      { rewrite append_assoc. done. }
      unfold Py.strip. rewrite Hshape, rstrip_app_digits by done.
      by rewrite <- Hshape. }
    apply parse_int_none. unfold Py.signed_body. rewrite Hstrip. cbn [snd].
    change (Py.literal_value 0 (zeros ++ String "-" ds) = None).
    unfold zeros. by rewrite literal_value_zeros. }
  destruct (int_str_raise _ Hnone) as [e He].
  exists (Py.format_0gt6 n), e. unfold pad.
  rewrite (proj2 (int_str x n) Hparse), He.
  split; [done |]. split; [| split; [done | by apply (int_raises _ _ He)]].
  rewrite Hp. cbn [String.length]. rewrite length_append, length_repeat_char.
  cbn [String.length]. lia.
Qed.

Lemma negative_code_padding_not_idempotent_witness :
  ∃ p e,
    pad "-5" = Ok p ∧ String.length p = 6%nat
    ∧ pad p = Raise e ∧ exn_class e = "ValueError".
Proof.
  apply (negative_code_padding_not_idempotent "-5" (-5)).
  - vm_compute. reflexivity.
  - lia.
Defined.
